(** * MagiskHide process monitor (core/jni/magiskhide/proc_monitor.c)

    A shallow embedding of the process monitor: the notification parser
    and the loop turn around it, the namespace polls, the
    freeze-and-dispatch step, the HIDE_DONE handler, store_zygote_ns and
    the unmount worker.  Calls that leave the process are recorded as
    events of a trace; what the rest of the system answers comes from a
    [world] of oracles indexed by the number of events issued so far.
    Loops that need not end take fuel and report when it ran out. *)

From Stdlib Require Import ZArith Ascii String DecimalString Lia.
From stdpp Require Import base list strings gmap.

Local Open Scope Z_scope.
#[local] Set Warnings "-clear-no-such-hyp".

(** ** C strings and the libc routines the monitor calls *)

Module CStr.

Definition isspace (c : ascii) : bool :=
  let n := nat_of_ascii c in
  (n =? 32)%nat || ((9 <=? n)%nat && (n <=? 13)%nat).

Definition isdigit (c : ascii) : bool :=
  let n := nat_of_ascii c in (48 <=? n)%nat && (n <=? 57)%nat.

Definition digit_val (c : ascii) : Z := Z.of_nat (nat_of_ascii c) - 48.

(** [strchr s c]: the suffix of [s] starting at the first [c], the
    NULL pointer ([None]) when there is none. *)
Fixpoint strchr (s : string) (c : ascii) : option string :=
  match s with
  | EmptyString => None
  | String a r => if Ascii.eqb a c then Some s else strchr r c
  end.

Fixpoint starts_with (p s : string) : bool :=
  match p, s with
  | EmptyString, _ => true
  | String a p', String b s' => Ascii.eqb a b && starts_with p' s'
  | String _ _, EmptyString => false
  end.

(** [strstr hay needle]: the suffix of [hay] at the first occurrence
    of [needle], NULL when it does not occur. *)
Fixpoint strstr (hay needle : string) : option string :=
  if starts_with needle hay then Some hay
  else match hay with
       | EmptyString => None
       | String _ r => strstr r needle
       end.

Definition found (p : option string) : bool :=
  match p with Some _ => true | None => false end.

(** [strcmp a b == 0] *)
Definition streq (a b : string) : bool := String.eqb a b.

(** A C [int]: 32 bits, two's complement. *)
Definition wrap_int (z : Z) : Z := (z + 2 ^ 31) mod 2 ^ 32 - 2 ^ 31.

(** An [intmax_t], 64 bits: a conversion of digits that leaves its range
    gives the nearest end of it. *)
Definition saturate (z : Z) : Z := Z.max (- 2 ^ 63) (Z.min z (2 ^ 63 - 1)).

(** [s] and its terminating NUL have room in a [char[size]]. *)
Definition fits (size : nat) (s : string) : bool :=
  (String.length s <? size)%nat.

(** [%d] as printed by [snprintf]. *)
Definition itoa (z : Z) : string := NilZero.string_of_int (Z.to_int z).

(** *** sscanf

    A format is a list of directives.  Only the directives that occur
    in the monitor's formats are modelled. *)
Inductive directive :=
| DLit (c : ascii)                       (* an ordinary character *)
| DSpace                                 (* white space in the format *)
| DInt (assign : bool)                   (* %d, %*d *)
| DStr (assign : bool) (width : option nat).  (* %Ns, %*s *)

Inductive scanval := VInt (z : Z) | VStr (s : string).

Fixpoint skip_space (s : string) : string :=
  match s with
  | String c r => if isspace c then skip_space r else s
  | EmptyString => s
  end.

(** The longest run of non-space characters, cut at [w] characters. *)
Fixpoint scan_token (w : nat) (s : string) : string * string :=
  match w, s with
  | S w', String c r =>
      if isspace c then (EmptyString, s)
      else let '(t, rest) := scan_token w' r in (String c t, rest)
  | _, _ => (EmptyString, s)
  end.

Fixpoint scan_digits (acc : Z) (s : string) : Z * string :=
  match s with
  | String c r => if isdigit c then scan_digits (10 * acc + digit_val c) r
                  else (acc, s)
  | EmptyString => (acc, s)
  end.

(** What one conversion does with the input. *)
Inductive conv (A : Type) :=
| Conv (a : A) (rest : string)    (* converted *)
| NoMatch                         (* matching failure *)
| NoInput.                        (* input failure: end of the string *)
Arguments Conv {A} a rest.
Arguments NoMatch {A}.
Arguments NoInput {A}.

Definition first_is_digit (s : string) : bool :=
  match s with String c _ => isdigit c | EmptyString => false end.

(** [%d]: skip white space, an optional sign, then at least one digit;
    the digits are converted as by [strtoimax], which saturates, and the
    result is stored in an [int]. *)
Definition scan_int (s : string) : conv Z :=
  match skip_space s with
  | EmptyString => NoInput
  | String c r =>
      if Ascii.eqb c "-" then
        if first_is_digit r
        then let '(v, rest) := scan_digits 0 r in
             Conv (wrap_int (saturate (- v))) rest
        else NoMatch
      else if Ascii.eqb c "+" then
        if first_is_digit r
        then let '(v, rest) := scan_digits 0 r in
             Conv (wrap_int (saturate v)) rest
        else NoMatch
      else if isdigit c
        then let '(v, rest) := scan_digits 0 (String c r) in
             Conv (wrap_int (saturate v)) rest
        else NoMatch
  end.

(** [%Ns]: skip white space, then at most [N] non-space characters. *)
Definition scan_str (width : option nat) (s : string) : conv string :=
  match skip_space s with
  | EmptyString => NoInput
  | String c r =>
      let w := match width with
               | Some n => n
               | None => String.length (String c r)
               end in
      let '(t, rest) := scan_token w (String c r) in Conv t rest
  end.

Definition EOF : Z := -1.

(** The value [sscanf] returns when it stops on a failure: EOF on an
    input failure before anything was converted, else the number of
    items assigned so far. *)
Definition stop (input_failure converted : bool) (got : list scanval)
  : Z * list scanval :=
  if input_failure && negb converted then (EOF, got)
  else (Z.of_nat (List.length got), got).

Fixpoint sscanf_from (fmt : list directive) (s : string)
         (converted : bool) (got : list scanval) : Z * list scanval :=
  match fmt with
  | [] => (Z.of_nat (List.length got), got)
  | DLit c :: fmt' =>
      match s with
      | EmptyString => stop true converted got
      | String a r => if Ascii.eqb a c then sscanf_from fmt' r converted got
                      else stop false converted got
      end
  | DSpace :: fmt' => sscanf_from fmt' (skip_space s) converted got
  | DInt assign :: fmt' =>
      match scan_int s with
      | Conv v rest =>
          sscanf_from fmt' rest true
                      (if assign then got ++ [VInt v] else got)
      | NoMatch => stop false converted got
      | NoInput => stop true converted got
      end
  | DStr assign width :: fmt' =>
      match scan_str width s with
      | Conv v rest =>
          sscanf_from fmt' rest true
                      (if assign then got ++ [VStr v] else got)
      | NoMatch => stop false converted got
      | NoInput => stop true converted got
      end
  end.

Definition sscanf (s : string) (fmt : list directive) : Z * list scanval :=
  sscanf_from fmt s false [].

End CStr.

Import CStr.

(** ** The notification parser (proc_monitor, lines 204-222) *)

(** ["[%*d %d %*d %*d %256s"] *)
Definition fmt_seven : list directive :=
  [DLit "["; DInt false; DSpace; DInt true; DSpace; DInt false; DSpace;
   DInt false; DSpace; DStr true (Some 256%nat)].

(** ["[%*d %d %*d %256s"] *)
Definition fmt_six : list directive :=
  [DLit "["; DInt false; DSpace; DInt true; DSpace; DInt false; DSpace;
   DStr true (Some 256%nat)].

(** The [while(1)] loop of lines 208-214: every comma from [ss] on is
    overwritten with a space and counted. *)
Fixpoint blank_commas (s : string) : string * Z :=
  match s with
  | EmptyString => (EmptyString, 0)
  | String a r =>
      let '(r', n) := blank_commas r in
      if Ascii.eqb a "," then (String " " r', n + 1) else (String a r', n)
  end.

Inductive parsed :=
| Fault                                (* NULL handed to strchr *)
| Overrun                              (* sscanf wrote past processName *)
| Dropped                              (* ret != 2: continue *)
| Parsed (pid : Z) (processName : string).

(** Lines 204-222. [processName] is a [char[256]] (line 206): the name
    [%256s] stores has up to 256 characters, and with its terminator a
    name of 256 characters takes 257 bytes. *)
Definition parse_line (log : string) : parsed :=
  match strchr log "[" with
  | None => Fault
  | Some ss =>
      let '(ss', comma) := blank_commas ss in
      let '(ret, got) :=
        if comma =? 6 then sscanf ss' fmt_seven else sscanf ss' fmt_six in
      if negb (ret =? 2) then Dropped
      else match got with
           | [VInt pid; VStr processName] =>
               if fits 256 processName then Parsed pid processName
               else Overrun
           | _ => Dropped
           end
  end.


(** ** Events, the world and the process state *)

Inductive signal := SIGSTOP | SIGCONT | HIDE_DONE | TERM_THREAD.

(** One event per call that leaves the process, with the answer it got
    where the code looks at it. *)
Inductive event :=
| EvUsleep (usec : Z)
| EvSleep (sec : Z)
| EvReadNs (pid : Z) (link : option string)   (* /proc/pid/ns/mnt *)
| EvKill (pid : Z) (sig : signal) (ok : bool)
| EvRemount (rdonly : bool)                   (* xmount(NULL, "/", ...) *)
| EvUnlink (path : string)
| EvSymlink (target linkpath : string)
| EvLock
| EvUnlock
| EvFork (pid ppid : Z)        (* the child runs hide_daemon(pid, ppid) *)
| EvDelivered (sig : signal)   (* a handler is entered *)
| EvManageSelinux
| EvCleanProps
| EvSetns (pid : Z) (ok : bool)               (* switch_mnt_ns *)
| EvReadFile (path : string)                  (* file_to_vector *)
| EvUmount (mountpoint : string) (ok : bool)  (* umount2(.., MNT_DETACH) *)
| EvVecDestroy (initialised : bool)           (* vec_destroy(&mount_list) *)
| EvExit (code : Z).

(** What the rest of the system answers.  The first argument of an
    oracle is the time of the call: the number of events the calling
    process has issued before it. *)
Record world := {
  (* the link behind /proc/pid/ns/mnt as xreadlink leaves it in the
     buffer; None when access(path, R_OK) fails *)
  w_mnt_ns : nat -> Z -> option string;
  (* kill(pid, sig) returned 0 *)
  w_kill : nat -> Z -> signal -> bool;
  (* what an uninitialised automatic buffer holds *)
  w_garbage : nat -> string;
  w_getpid : Z;
  (* switch_mnt_ns(pid) returned 0 *)
  w_setns : nat -> Z -> bool;
  (* the lines file_to_vector reads *)
  w_file : nat -> string -> list string;
  (* umount2(mountpoint, MNT_DETACH) did not return -1 *)
  w_umount : nat -> string -> bool;
  (* vec_destroy of a vector that was never initialised came back *)
  w_wild_free : nat -> bool
}.

(** The path macros of magisk.h, which the monitor only names. *)
Record header := {
  DATABIN : string;
  MAINIMG : string;
  MOUNTPOINT : string;
  MAGISKRC : string
}.

(** The statics of proc_monitor.c (lines 22-23) and the trace of the
    process.  A forked worker starts with a copy of them. *)
Record proc := {
  init_ns : string;
  zygote_ns : list string;       (* char zygote_ns[2][32] *)
  zygote_num : nat;
  hide_queue : Z;
  cache_block : string;
  has_cache : Z;
  trace : list event
}.

Definition set_trace (t : list event) (p : proc) : proc :=
  {| init_ns := init_ns p; zygote_ns := zygote_ns p;
     zygote_num := zygote_num p; hide_queue := hide_queue p;
     cache_block := cache_block p; has_cache := has_cache p; trace := t |}.

Definition set_hide_queue (q : Z) (p : proc) : proc :=
  {| init_ns := init_ns p; zygote_ns := zygote_ns p;
     zygote_num := zygote_num p; hide_queue := q;
     cache_block := cache_block p; has_cache := has_cache p;
     trace := trace p |}.

Definition set_zygote_ns (l : list string) (p : proc) : proc :=
  {| init_ns := init_ns p; zygote_ns := l;
     zygote_num := zygote_num p; hide_queue := hide_queue p;
     cache_block := cache_block p; has_cache := has_cache p;
     trace := trace p |}.

Definition set_zygote_num (n : nat) (p : proc) : proc :=
  {| init_ns := init_ns p; zygote_ns := zygote_ns p;
     zygote_num := n; hide_queue := hide_queue p;
     cache_block := cache_block p; has_cache := has_cache p;
     trace := trace p |}.

Definition set_cache_block (s : string) (p : proc) : proc :=
  {| init_ns := init_ns p; zygote_ns := zygote_ns p;
     zygote_num := zygote_num p; hide_queue := hide_queue p;
     cache_block := s; has_cache := has_cache p; trace := trace p |}.

Definition set_has_cache (b : Z) (p : proc) : proc :=
  {| init_ns := init_ns p; zygote_ns := zygote_ns p;
     zygote_num := zygote_num p; hide_queue := hide_queue p;
     cache_block := cache_block p; has_cache := b; trace := trace p |}.

Definition emit (e : event) (p : proc) : proc :=
  set_trace (trace p ++ [e]) p.

Definition now (p : proc) : nat := List.length (trace p).

(** The statics as the loader leaves them (line 22-23). *)
Definition fresh : proc :=
  {| init_ns := ""; zygote_ns := [""; ""]; zygote_num := 0%nat;
     hide_queue := 0; cache_block := ""; has_cache := 1; trace := [] |}.

Section Monitor.

Variable W : world.
Variable hdr : header.

(** ** read_namespace (lines 52-59)

    The result is the return value and the contents of [target]. *)
Definition read_namespace (pid : Z) (target : string) (p : proc)
  : Z * string * proc :=
  let r := w_mnt_ns W (now p) pid in
  let p' := emit (EvReadNs pid r) p in
  match r with
  | None => (1, target, p')
  | Some link => (0, link, p')
  end.

(** ** store_zygote_ns (lines 61-68) *)

Inductive outcome :=
| Done (p : proc)     (* control came back *)
| Spin (p : proc)     (* still inside a loop when the fuel ran out *)
| Segv (p : proc).    (* undefined behaviour: a bad pointer was used or
                         an array overrun; the process is followed no
                         further *)

Definition zygote_slot (p : proc) : string :=
  default "" (zygote_ns p !! zygote_num p).

(** The do-while of lines 63-66. *)
Fixpoint store_zygote_poll (fuel : nat) (pid : Z) (p : proc) : outcome :=
  match fuel with
  | O => Spin p
  | S fuel' =>
      let p1 := emit (EvUsleep 500) p in
      let '(_, slot, p2) := read_namespace pid (zygote_slot p1) p1 in
      let p3 := set_zygote_ns (<[zygote_num p2 := slot]> (zygote_ns p2)) p2 in
      if streq (zygote_slot p3) (init_ns p3)
      then store_zygote_poll fuel' pid p3
      else Done p3
  end.

Definition store_zygote_ns (fuel : nat) (pid : Z) (p : proc) : outcome :=
  if (zygote_num p =? 2)%nat then Done p
  else match store_zygote_poll fuel pid p with
       | Done p' => Done (set_zygote_num (S (zygote_num p')) p')
       | o => o
       end.

(** ** hide_done (lines 41-50), the HIDE_DONE handler *)

Definition restore_markers (p : proc) : proc :=
  let p := emit (EvRemount false) p in
  let p := emit (EvSymlink (DATABIN hdr) "/data/magisk") p in
  let p := emit (EvSymlink (MAINIMG hdr) "/data/magisk.img") p in
  let p := emit (EvSymlink (MOUNTPOINT hdr) "/magisk") p in
  emit (EvRemount true) p.

Definition hide_done (p : proc) : proc :=
  let p := emit (EvDelivered HIDE_DONE) p in
  let p := set_hide_queue (wrap_int (hide_queue p - 1)) p in
  if hide_queue p =? 0 then restore_markers p else p.

(** ** The monitor loop (lines 198-266) *)

(** The for loop of lines 230-237: one comparison per spawner, the
    namespace read again before each. The result is [ret], [ns]. *)
Fixpoint ns_round (pid : Z) (zs : list string) (ns : string) (p : proc)
  : Z * string * proc :=
  match zs with
  | [] => (1, ns, p)
  | z :: zs' =>
      let '(_, ns1, p1) := read_namespace pid ns p in
      if streq ns1 z then (0, ns1, emit (EvUsleep 50) p1)
      else ns_round pid zs' ns1 p1
  end.

Inductive polled :=
| PollDone (ns : string) (p : proc)
| PollSpin (p : proc).

(** The while(1) of lines 228-239. *)
Fixpoint ns_poll (fuel : nat) (pid : Z) (zs : list string) (ns : string)
         (p : proc) : polled :=
  match fuel with
  | O => PollSpin p
  | S fuel' =>
      let '(ret, ns1, p1) := ns_round pid zs ns p in
      if ret =? 0 then ns_poll fuel' pid zs ns1 p1 else PollDone ns1 p1
  end.

Definition spawners (p : proc) : list string :=
  take (zygote_num p) (zygote_ns p).

(** Lines 246-251. *)
Definition hide_markers (p : proc) : proc :=
  let p := emit (EvRemount false) p in
  let p := emit (EvUnlink "/magisk") p in
  let p := emit (EvUnlink "/data/magisk") p in
  let p := emit (EvUnlink "/data/magisk.img") p in
  let p := emit (EvUnlink (MAGISKRC hdr)) p in
  emit (EvRemount true) p.

(** Lines 246-260, as the monitor sees them: the child of the fork is
    another process. *)
Definition dispatch (pid : Z) (p : proc) : proc :=
  let p := hide_markers p in
  let p := set_hide_queue (wrap_int (hide_queue p + 1)) p in
  let selfpid := w_getpid W in
  emit (EvFork pid selfpid) p.

(** vec_for_each(hide_list, line), lines 226-264. *)
Fixpoint scan_hide_list (fuel : nat) (pid : Z) (processName ns : string)
         (lines : list string) (p : proc) : outcome :=
  match lines with
  | [] => Done p
  | line :: rest =>
      if streq processName line then
        match ns_poll fuel pid (spawners p) ns p with
        | PollSpin p1 => Spin p1
        | PollDone ns1 p1 =>
            let ok := w_kill W (now p1) pid SIGSTOP in
            let p2 := emit (EvKill pid SIGSTOP ok) p1 in
            if negb ok
            then scan_hide_list fuel pid processName ns1 rest p2  (* continue *)
            else Done (dispatch pid p2)                           (* break *)
        end
      else scan_hide_list fuel pid processName ns rest p
  end.

(** One turn of the for loop of line 198. [log] is what the read of
    line 199 delivered: None when it was cut short. *)
Definition handle_log (fuel : nat) (hide_list : list string)
           (log : option string) (p : proc) : outcome :=
  match log with
  | None => Done p
  | Some l =>
      match parse_line l with
      | Fault => Segv p
      | Overrun => Segv p
      | Dropped => Done p
      | Parsed pid processName =>
          let ns := w_garbage W (now p) in
          let p1 := emit EvLock p in
          match scan_hide_list fuel pid processName ns hide_list p1 with
          | Done p2 => Done (emit EvUnlock p2)
          | o => o
          end
      end
  end.

(** ** hide_daemon (lines 77-149), the worker *)

Definition lazy_unmount (mountpoint : string) (p : proc) : proc :=
  emit (EvUmount mountpoint (w_umount W (now p) mountpoint)) p.

(** [sscanf(line, "%*s %4096s", buffer)]: [buffer] afterwards. [buffer]
    is a [char[PATH_MAX]] (line 81), PATH_MAX being 4096: this is what the
    array holds for a second field that [fits 4096]; the worker is not
    followed through the write past the array that a longer field
    causes. *)
Definition scan_mountpoint (line buffer : string) : string :=
  match sscanf line [DStr false None; DSpace; DStr true (Some 4096%nat)] with
  | (_, [VStr mp]) => mp
  | _ => buffer
  end.

(** [sscanf(line, "%256s", cache_block)]: [cache_block] afterwards.
    [cache_block] is a [char[256]] (line 22): this is what the array
    holds for a first field that [fits 256]; the worker is not followed
    through the write past the array that a longer field causes. *)
Definition scan_device (line old : string) : string :=
  match sscanf line [DStr true (Some 256%nat)] with
  | (_, [VStr dev]) => dev
  | _ => old
  end.

(** A vec_for_each whose body unmounts the lines [sel] picks. *)
Fixpoint unmount_pass (sel : string -> bool) (lines : list string)
         (buffer : string) (p : proc) : string * proc :=
  match lines with
  | [] => (buffer, p)
  | line :: rest =>
      if sel line then
        let buffer' := scan_mountpoint line buffer in
        unmount_pass sel rest buffer' (lazy_unmount buffer' p)
      else unmount_pass sel rest buffer p
  end.

(** Lines 96-101. *)
Fixpoint find_cache_block (lines : list string) (p : proc) : proc :=
  match lines with
  | [] => p
  | line :: rest =>
      if found (strstr line " /cache ")
      then set_cache_block (scan_device line (cache_block p)) p
      else find_cache_block rest p
  end.

Definition is_cache_mount (block line : string) : bool :=
  found (strstr line block) &&
  (found (strstr line " /system/") || found (strstr line " /vendor/")).

Definition is_dummy_mount (line : string) : bool :=
  found (strstr line "tmpfs /system") || found (strstr line "tmpfs /vendor")
  || found (strstr line "tmpfs /sbin").

Definition is_loop_mount (line : string) : bool :=
  found (strstr line "/dev/block/loop").

Definition mounts_path (pid : Z) : string :=
  "/proc/" +:+ itoa pid +:+ "/mounts".

Definition file_to_vector (path : string) (p : proc) : list string * proc :=
  (w_file W (now p) path, emit (EvReadFile path) p).

(** Lines 90-138. *)
Definition unmount_all (pid : Z) (p : proc) : proc :=
  let buffer := mounts_path pid in
  let '(mount_list, p) := file_to_vector buffer p in
  let p :=
    if negb (has_cache p =? 0) && streq (cache_block p) "" then
      let p := find_cache_block mount_list p in
      if (String.length (cache_block p) =? 0)%nat
      then set_has_cache 0 p else p
    else p in
  let '(buffer, p) :=
    if negb (has_cache p =? 0)
    then unmount_pass (is_cache_mount (cache_block p)) mount_list buffer p
    else (buffer, p) in
  let '(buffer, p) := unmount_pass is_dummy_mount mount_list buffer p in
  let buffer := mounts_path pid in
  let '(mount_list, p) := file_to_vector buffer p in
  let '(buffer, p) := unmount_pass is_loop_mount mount_list buffer p in
  p.

Definition hide_daemon (pid ppid : Z) (p : proc) : outcome :=
  let p := emit EvManageSelinux p in
  let p := emit EvCleanProps p in
  let joined := w_setns W (now p) pid in
  let p := emit (EvSetns pid joined) p in
  let p := if joined then unmount_all pid p else p in
  (* exit: *)
  let p := emit (EvKill pid SIGCONT (w_kill W (now p) pid SIGCONT)) p in
  (* mount_list is initialised at line 91 only *)
  let back := joined || w_wild_free W (now p) in
  let p := emit (EvVecDestroy joined) p in
  if negb back then Segv p
  else
    let p := emit (EvSleep 10) p in
    let p :=
      emit (EvKill ppid HIDE_DONE (w_kill W (now p) ppid HIDE_DONE)) p in
    Done (emit (EvExit 0) p).

(** The worker that [EvFork pid ppid] starts: a copy of the monitor
    with a trace of its own. *)
Definition worker (pid ppid : Z) (monitor : proc) : outcome :=
  hide_daemon pid ppid (set_trace [] monitor).

End Monitor.


(** ** Vocabulary of the statements *)

(** [grows p evs p']: [p'] is [p] with [evs] added to its trace and
    nothing else changed. *)
Definition grows (p : proc) (evs : list event) (p' : proc) : Prop :=
  p' = set_trace (trace p ++ evs) p.

Definition poll_event (pid : Z) (e : event) : Prop :=
  match e with
  | EvReadNs q _ => q = pid
  | EvUsleep _ => True
  | _ => False
  end.

(** What scanning the hide list issues as long as no candidate is
    frozen: polls and suspend signals that were not delivered. *)
Definition scan_event (pid : Z) (e : event) : Prop :=
  match e with
  | EvReadNs q _ => q = pid
  | EvUsleep _ => True
  | EvKill q SIGSTOP false => q = pid
  | _ => False
  end.

Definition polled_proc (r : polled) : proc :=
  match r with PollDone _ p => p | PollSpin p => p end.

Definition outcome_proc (o : outcome) : proc :=
  match o with Done p => p | Spin p => p | Segv p => p end.

(** The contents of the buffer after each of a run of namespace reads
    that started with [ns] in it: a failed read leaves it as it was. *)
Fixpoint buffers (ns : string) (links : list (option string)) : list string :=
  match links with
  | [] => []
  | link :: rest => let ns' := default ns link in ns' :: buffers ns' rest
  end.

(** [evs] ends with one read per spawner, none of which left the
    spawner's fingerprint in the buffer. *)
Definition clear_round (pid : Z) (zs : list string) (evs : list event)
  : Prop :=
  exists before ns links,
    evs = before ++ map (EvReadNs pid) links
    /\ Forall2 (fun b z => b <> z) (buffers ns links) zs.

(** The suspend signal sent to [pid], whatever kill answered. *)
Definition is_freeze (pid : Z) (e : event) : bool :=
  match e with
  | EvKill q SIGSTOP _ => q =? pid
  | _ => false
  end.

(** Events in which every suspend signal sent to [pid] comes right
    after a clear round: what was issued before the signal satisfies
    [clear_round], and what follows it is of the same kind. *)
Inductive guarded (pid : Z) (zs : list string) : list event -> Prop :=
| guarded_quiet evs :
    Forall (fun e => is_freeze pid e = false) evs -> guarded pid zs evs
| guarded_freeze polls ok rest :
    Forall (fun e => is_freeze pid e = false) polls ->
    clear_round pid zs polls ->
    guarded pid zs rest ->
    guarded pid zs (polls ++ EvKill pid SIGSTOP ok :: rest).

(** The events of the freeze-and-dispatch step after the signal: the
    marker toggle and the fork. *)
Definition is_dispatch (e : event) : bool :=
  match e with
  | EvRemount _ | EvUnlink _ | EvSymlink _ _ | EvFork _ _ => true
  | _ => false
  end.

(** Workers in flight according to a trace: one more for each fork,
    one fewer for each HIDE_DONE the handler was entered for. *)
Fixpoint pending (tr : list event) : Z :=
  match tr with
  | [] => 0
  | EvFork _ _ :: r => 1 + pending r
  | EvDelivered HIDE_DONE :: r => pending r - 1
  | _ :: r => pending r
  end.

Definition restore_events (hdr : header) : list event :=
  [EvRemount false;
   EvSymlink (DATABIN hdr) "/data/magisk";
   EvSymlink (MAINIMG hdr) "/data/magisk.img";
   EvSymlink (MOUNTPOINT hdr) "/magisk";
   EvRemount true].

Definition hide_events (hdr : header) : list event :=
  [EvRemount false;
   EvUnlink "/magisk";
   EvUnlink "/data/magisk";
   EvUnlink "/data/magisk.img";
   EvUnlink (MAGISKRC hdr);
   EvRemount true].

(** The states of the monitor between two turns of its loop.  HIDE_DONE
    is delivered between turns, and only while a forked worker has not
    reported yet; fewer than INT_MAX workers are in flight at a time. *)
Inductive reachable (W : world) (hdr : header) : proc -> Prop :=
| reach_start p :
    hide_queue p = 0 -> trace p = [] -> reachable W hdr p
| reach_log p fuel hide_list log p' :
    reachable W hdr p ->
    pending (trace p) < 2 ^ 31 - 1 ->
    handle_log W hdr fuel hide_list log p = Done p' ->
    reachable W hdr p'
| reach_done p :
    reachable W hdr p ->
    0 < pending (trace p) ->
    reachable W hdr (hide_done hdr p).

(** *** The root file system, as far as the markers go

    The names that exist in it and whether it is mounted writable.
    unlink and symlink fail on a read-only file system; symlink fails
    on a name that exists. *)
Record rootfs := {
  entries : gset string;
  writable : bool
}.

Definition fs_step (fs : rootfs) (e : event) : rootfs :=
  match e with
  | EvRemount rdonly => {| entries := entries fs; writable := negb rdonly |}
  | EvUnlink path =>
      if writable fs
      then {| entries := entries fs ∖ {[path]}; writable := true |}
      else fs
  | EvSymlink _ linkpath =>
      if writable fs
      then {| entries := entries fs ∪ {[linkpath]}; writable := true |}
      else fs
  | _ => fs
  end.

Definition replay (evs : list event) (fs : rootfs) : rootfs :=
  foldl fs_step fs evs.

Fixpoint unlinked (evs : list event) : gset string :=
  match evs with
  | [] => ∅
  | EvUnlink path :: r => {[path]} ∪ unlinked r
  | _ :: r => unlinked r
  end.

Fixpoint symlinked (evs : list event) : gset string :=
  match evs with
  | [] => ∅
  | EvSymlink _ linkpath :: r => {[linkpath]} ∪ symlinked r
  | _ :: r => symlinked r
  end.


(** The block device of a worker's first pass over [table], as lines
    95-104 leave it: the one in [cache_block] or, when that array is
    still empty, the first field of the first line of the table with
    " /cache " in it.  None when [has_cache] is 0, or is cleared because
    no device was found. *)
Definition cache_device (table : list string) (p : proc) : option string :=
  if has_cache p =? 0 then None
  else if streq (cache_block p) "" then
    match List.find (fun line => found (strstr line " /cache ")) table with
    | Some line =>
        let block := scan_device line "" in
        if streq block "" then None else Some block
    | None => None
    end
  else Some (cache_block p).

(** The events [p'] has issued since it was [p]. *)
Definition issued (p p' : proc) : list event :=
  drop (List.length (trace p)) (trace p').

(** *** Records of the notification source

    The fields of a record, as the statements about the parser build
    them: numbers are runs of digits, a word has no white space and no
    comma in it. *)
Fixpoint all_chars (f : ascii -> bool) (s : string) : bool :=
  match s with
  | EmptyString => true
  | String c r => f c && all_chars f r
  end.

Definition is_comma (c : ascii) : bool := Ascii.eqb c ",".

Definition is_number (s : string) : bool :=
  negb (String.eqb s "") && all_chars isdigit s.

Definition is_word (s : string) : bool :=
  negb (String.eqb s "")
  && all_chars (fun c => negb (isspace c) && negb (is_comma c)) s.

Definition no_comma (s : string) : bool :=
  all_chars (fun c => negb (is_comma c)) s.

Fixpoint decimal_from (acc : Z) (s : string) : Z :=
  match s with
  | EmptyString => acc
  | String c r => decimal_from (10 * acc + digit_val c) r
  end.

Definition decimal (s : string) : Z := decimal_from 0 s.

Fixpoint first_chars (n : nat) (s : string) : string :=
  match n, s with
  | S n', String c r => String c (first_chars n' r)
  | _, _ => EmptyString
  end.

(** [[a,b,c,w,t,u]: five commas. *)
Definition record6 (a b c w t u : string) : string :=
  "[" +:+ a +:+ "," +:+ b +:+ "," +:+ c +:+ "," +:+ w +:+ "," +:+ t
      +:+ "," +:+ u.

(** [[a,b,c,d,w,t,u]: six commas. *)
Definition record7 (a b c d w t u : string) : string :=
  "[" +:+ a +:+ "," +:+ b +:+ "," +:+ c +:+ "," +:+ d +:+ "," +:+ w
      +:+ "," +:+ t +:+ "," +:+ u.

Fixpoint replicate_char (n : nat) (c : ascii) : string :=
  match n with
  | O => EmptyString
  | S n' => String c (replicate_char n' c)
  end.

(** *** Sample data for the closed examples *)

(** An instance of the header; the monitor works with any. *)
Definition sample_header : header :=
  {| DATABIN := "/data/adb/bin"; MAINIMG := "/data/adb/magisk.img";
     MOUNTPOINT := "/sbin/.core/img"; MAGISKRC := "/init.magisk.rc" |}.

(** A world in which every process sits in the namespace [ns], every
    call succeeds and every mount table is [table]. *)
Definition calm_world (ns : option string) (table : list string) : world :=
  {| w_mnt_ns := fun _ _ => ns;
     w_kill := fun _ _ _ => true;
     w_garbage := fun _ => "";
     w_getpid := 77;
     w_setns := fun _ _ => true;
     w_file := fun _ _ => table;
     w_umount := fun _ _ => true;
     w_wild_free := fun _ => true |}.

(** The monitor when it starts to look for the spawners (line 177). *)
Definition booting (init : string) : proc :=
  {| init_ns := init; zygote_ns := [""; ""]; zygote_num := 0%nat;
     hide_queue := 0; cache_block := ""; has_cache := 1; trace := [] |}.

(** A world in which a process is in init's namespace at the first read
    and cannot be read any more afterwards. *)
Definition dying_world (init : string) : world :=
  {| w_mnt_ns := fun t _ => if (t <? 2)%nat then Some init else None;
     w_kill := fun _ _ _ => false;
     w_garbage := fun _ => "";
     w_getpid := 77;
     w_setns := fun _ _ => false;
     w_file := fun _ _ => [];
     w_umount := fun _ _ => false;
     w_wild_free := fun _ => false |}.

(** The monitor after start-up on a device with one spawner. *)
Definition started (init zygote : string) : proc :=
  {| init_ns := init; zygote_ns := [zygote; ""]; zygote_num := 1%nat;
     hide_queue := 0; cache_block := ""; has_cache := 1; trace := [] |}.

Definition sample_init : string := "mnt:[4026531840]".
Definition sample_zygote : string := "mnt:[4026532000]".
Definition sample_app : string := "mnt:[4026532001]".

Definition sample_mounts : list string :=
  ["rootfs / rootfs ro 0 0";
   "/dev/block/mmcblk0p27 /cache ext4 rw 0 0";
   "/dev/block/mmcblk0p27 /system/etc/hosts ext4 rw 0 0";
   "tmpfs /system/app tmpfs rw 0 0";
   "tmpfs /sbin tmpfs rw 0 0";
   "/dev/block/loop0 /magisk ext4 rw 0 0"].

(** The two records the specification gives as examples. *)
Definition spec_record7 : string :=
  "[123, 1000, 5555, 2, 1, 10, com.example.app]".

Definition spec_record6 : string :=
  "[123, 1000, 5555, 1, com.example.app]".

(** A record whose process name has 300 characters. *)
Definition long_name : string := replicate_char 300 "a".

Definition long_record : string :=
  record6 "0" "1234" "10089" long_name "activity" ".Main]".

(** The names the restore step links again. *)
Definition restored_names : gset string :=
  {["/data/magisk"; "/data/magisk.img"; "/magisk"]}.

(** A sample run: one matching notification, then its worker reports. *)
Definition sample_log : string :=
  "[0,5555,10089,com.example.app,activity,.Main]".

Definition sample_world : world := calm_world (Some sample_app) [].

Definition dispatched : proc :=
  outcome_proc
    (handle_log sample_world sample_header 1 ["com.example.app"]
                (Some sample_log)
                (started sample_init sample_zygote)).


(** ** The loop over several turns, and the thread around it *)

(** What happens to the monitor between two blocking reads: the read
    delivers a line (or is cut short) while the hide list holds
    [hide_list], or HIDE_DONE arrives and its handler runs. *)
Inductive turn :=
| TurnLog (log : option string) (hide_list : list string)
| TurnDone.

(** The for(;;) of line 198 over the turns it is given; a turn that
    does not come back ends it. *)
Fixpoint monitor_run (W : world) (hdr : header) (fuel : nat)
         (turns : list turn) (p : proc) : outcome :=
  match turns with
  | [] => Done p
  | TurnLog log hide_list :: rest =>
      match handle_log W hdr fuel hide_list log p with
      | Done p' => monitor_run W hdr fuel rest p'
      | o => o
      end
  | TurnDone :: rest => monitor_run W hdr fuel rest (hide_done hdr p)
  end.

Definition set_init_ns (s : string) (p : proc) : proc :=
  {| init_ns := s; zygote_ns := zygote_ns p;
     zygote_num := zygote_num p; hide_queue := hide_queue p;
     cache_block := cache_block p; has_cache := has_cache p;
     trace := trace p |}.

Module Thread.

(** The monitor thread: the statics of the file, the externs of
    magiskhide.h it writes and its pipe. *)
Record state := {
  statics : proc;
  hideEnabled : Z;
  hide_list : list string;
  listener_fd : Z;               (* log_events[HIDE_EVENT].fd *)
  pipefd : Z * Z;
  mutexes : bool;                (* hide_lock and file_lock exist *)
  handlers : list signal         (* signals with a handler, unblocked *)
}.

(** What the process table and the kernel answer at start-up. *)
Record sources := {
  (* Modelled from the spec: ps_filter_proc_name (utils, not in src/)
     "invokes a caller-supplied callback once per matching running
     process id"; these are the ids, in the order of the calls. *)
  s_ps : nat -> string -> list Z;
  (* the two descriptors xpipe2 leaves in pipefd *)
  s_pipe : nat -> Z * Z
}.

Inductive result :=
| Listening (t : state)    (* start-up is over, the loop begins *)
| Exited (t : state)       (* pthread_exit *)
| Waiting (t : state)      (* still in a start-up loop *)
| Crashed (t : state).

Definition result_state (r : result) : state :=
  match r with
  | Listening t | Exited t | Waiting t | Crashed t => t
  end.

Definition with_statics (p : proc) (t : state) : state :=
  {| statics := p; hideEnabled := hideEnabled t; hide_list := hide_list t;
     listener_fd := listener_fd t; pipefd := pipefd t;
     mutexes := mutexes t; handlers := handlers t |}.

(** term_thread (lines 26-39).  Modelled from the spec: destroy_list
    (not in src/) releases every entry of the hide list. *)
Definition term_thread (t : state) : state :=
  {| statics := statics t;
     hideEnabled := 0;
     hide_list := [];
     listener_fd := -1;
     pipefd := (-1, -1);
     mutexes := false;
     handlers := handlers t |}.

Section StartUp.

Variable W : world.
Variable Src : sources.

(** ps_filter_proc_name(name, store_zygote_ns) *)
Fixpoint store_each (fuel : nat) (pids : list Z) (p : proc) : outcome :=
  match pids with
  | [] => Done p
  | pid :: rest =>
      match store_zygote_ns W fuel pid p with
      | Done p' => store_each fuel rest p'
      | o => o
      end
  end.

Definition ps_filter_proc_name (fuel : nat) (name : string) (p : proc)
  : outcome :=
  store_each fuel (s_ps Src (now p) name) p.

(** The while(!zygote_num) of lines 178-182. *)
Fixpoint find_zygote (scans fuel : nat) (p : proc) : outcome :=
  match scans with
  | O => Spin p
  | S scans' =>
      if (zygote_num p =? 0)%nat then
        let p := emit (EvSleep 2) p in
        match ps_filter_proc_name fuel "zygote" p with
        | Done p' => find_zygote scans' fuel p'
        | o => o
        end
      else Done p
  end.

Definition lift (t : state) (o : outcome) (k : proc -> result) : result :=
  match o with
  | Done p => k p
  | Spin p => Waiting (with_statics p t)
  | Segv p => Crashed (with_statics p t)
  end.

(** proc_monitor up to the loop (lines 152-196). *)
Definition start_up (scans fuel : nat) (t : state) : result :=
  let t := {| statics := statics t; hideEnabled := hideEnabled t;
              hide_list := hide_list t; listener_fd := listener_fd t;
              pipefd := pipefd t; mutexes := mutexes t;
              handlers := [TERM_THREAD; HIDE_DONE] |} in
  let p := set_cache_block "" (statics t) in
  let '(ret, init, p) := read_namespace W 1 (init_ns p) p in
  let p := set_init_ns init p in
  if negb (ret =? 0) then Exited (term_thread (with_statics p t))
  else
    let p := set_zygote_num 0 p in
    lift t (find_zygote scans fuel p) (fun p =>
    lift t (ps_filter_proc_name fuel "zygote64" p) (fun p =>
      let fds := s_pipe Src (now p) in
      Listening {| statics := p; hideEnabled := hideEnabled t;
                   hide_list := hide_list t; listener_fd := fds.2;
                   pipefd := fds; mutexes := mutexes t;
                   handlers := handlers t |})).

End StartUp.

End Thread.

(** ** More vocabulary *)

(** The statics a turn of the loop has no business with. *)
Definition same_statics (p p' : proc) : Prop :=
  init_ns p' = init_ns p /\ zygote_ns p' = zygote_ns p
  /\ zygote_num p' = zygote_num p /\ cache_block p' = cache_block p
  /\ has_cache p' = has_cache p.

(** A suspend signal that reached its process. *)
Definition delivered_stop (e : event) : bool :=
  match e with
  | EvKill _ SIGSTOP true => true
  | _ => false
  end.

Definition is_fork (e : event) : bool :=
  match e with EvFork _ _ => true | _ => false end.

(** A field of a mount table line: not empty, no white space. *)
Definition is_token (s : string) : bool :=
  negb (String.eqb s "") && all_chars (fun c => negb (isspace c)) s.

Definition mount_line (dev mountpoint rest : string) : string :=
  dev +:+ " " +:+ mountpoint +:+ " " +:+ rest.

(** A notification that parsed: what the monitor can rely on. *)
Definition sound_notification (pid : Z) (processName : string) : Prop :=
  - 2 ^ 31 <= pid < 2 ^ 31
  /\ (1 <= String.length processName <= 256)%nat
  /\ all_chars (fun c => negb (isspace c)) processName = true.

(** What sscanf stores under the formats of the monitor. *)
Definition stored_ok (v : scanval) : Prop :=
  match v with
  | VInt z => - 2 ^ 31 <= z < 2 ^ 31
  | VStr s => (1 <= String.length s <= 256)%nat
              /\ all_chars (fun c => negb (isspace c)) s = true
  end.

Definition directive_ok (d : directive) : Prop :=
  match d with
  | DStr true w => w = Some 256%nat
  | _ => True
  end.

(** The call behind an event, without what it answered. *)
Definition call_of (e : event) : event :=
  match e with
  | EvKill pid sig _ => EvKill pid sig true
  | EvUmount mountpoint _ => EvUmount mountpoint true
  | e => e
  end.

(** Two processes that have made the same calls and hold the same
    cache statics. *)
Definition alike (p1 p2 : proc) : Prop :=
  map call_of (trace p1) = map call_of (trace p2)
  /\ cache_block p1 = cache_block p2
  /\ has_cache p1 = has_cache p2.

(** Two worlds that differ at most in what kill and umount2 answer. *)
Definition same_but_results (W1 W2 : world) : Prop :=
  (forall t pid, w_setns W1 t pid = w_setns W2 t pid)
  /\ (forall t path, w_file W1 t path = w_file W2 t path)
  /\ (forall t, w_wild_free W1 t = w_wild_free W2 t).

(** The spawner set of a monitor that has looked for the spawners: its
    array has two slots, at most two are taken, and none holds init's
    fingerprint. *)
Definition spawners_ok (p : proc) : Prop :=
  List.length (zygote_ns p) = 2%nat
  /\ (zygote_num p <= 2)%nat
  /\ Forall (fun z => z <> init_ns p) (spawners p).

(** A world in which the candidate is in [inside] at the reads before
    time [T] and in [outside] from then on. *)
Definition unsharing_world (T : nat) (inside outside : string) : world :=
  {| w_mnt_ns := fun t _ => if (t <? T)%nat then Some inside else Some outside;
     w_kill := fun _ _ _ => true;
     w_garbage := fun _ => "";
     w_getpid := 77;
     w_setns := fun _ _ => true;
     w_file := fun _ _ => [];
     w_umount := fun _ _ => true;
     w_wild_free := fun _ => true |}.

(** The same world as [calm_world] where no unmount succeeds. *)
Definition stubborn_world (ns : option string) (table : list string)
  : world :=
  {| w_mnt_ns := fun _ _ => ns;
     w_kill := fun _ _ _ => false;
     w_garbage := fun _ => "";
     w_getpid := 77;
     w_setns := fun _ _ => true;
     w_file := fun _ _ => table;
     w_umount := fun _ _ => false;
     w_wild_free := fun _ => true |}.

(** A world in which process 1 is in [init] and every other process
    in [other]. *)
Definition booted_world (init other : string) : world :=
  {| w_mnt_ns := fun _ pid => if pid =? 1 then Some init else Some other;
     w_kill := fun _ _ _ => true;
     w_garbage := fun _ => "";
     w_getpid := 77;
     w_setns := fun _ _ => true;
     w_file := fun _ _ => [];
     w_umount := fun _ _ => true;
     w_wild_free := fun _ => true |}.


(** A process table with one zygote, [pid], seen from the scan at time
    [T] on. *)
Definition late_zygote (T : nat) (pid : Z) : Thread.sources :=
  {| Thread.s_ps := fun t name =>
       if String.eqb name "zygote" && (T <=? t)%nat then [pid] else [];
     Thread.s_pipe := fun _ => (5, 6) |}.

Definition no_zygote : Thread.sources :=
  {| Thread.s_ps := fun _ _ => [];
     Thread.s_pipe := fun _ => (5, 6) |}.

(** The thread before proc_monitor runs. *)
Definition idle_thread (names : list string) : Thread.state :=
  {| Thread.statics := fresh; Thread.hideEnabled := 1;
     Thread.hide_list := names; Thread.listener_fd := -1;
     Thread.pipefd := (-1, -1); Thread.mutexes := true;
     Thread.handlers := [] |}.

(** * Properties *)

(** ** Traces only grow *)

Lemma trace_emit e p : trace (emit e p) = trace p ++ [e].
Proof. reflexivity. Qed.

Lemma now_emit e p : now (emit e p) = S (now p).
Proof. unfold now. rewrite trace_emit, length_app. simpl. lia. Qed.

Lemma grows_refl p : grows p [] p.
Proof. unfold grows. rewrite app_nil_r. by destruct p. Qed.

Lemma grows_emit e p : grows p [e] (emit e p).
Proof. reflexivity. Qed.

Lemma grows_trans p evs p' evs' p'' :
  grows p evs p' -> grows p' evs' p'' -> grows p (evs ++ evs') p''.
Proof.
  unfold grows. intros -> ->. simpl. by rewrite app_assoc.
Qed.

Lemma grows_trace p evs p' : grows p evs p' -> trace p' = trace p ++ evs.
Proof. by intros ->. Qed.

Lemma grows_hide_queue p evs p' :
  grows p evs p' -> hide_queue p' = hide_queue p.
Proof. by intros ->. Qed.

Lemma grows_spawners p evs p' : grows p evs p' -> spawners p' = spawners p.
Proof. by intros ->. Qed.

Lemma wrap_int_small z : - 2 ^ 31 <= z < 2 ^ 31 -> wrap_int z = z.
Proof.
  intros Hz. unfold wrap_int. rewrite Z.mod_small; lia.
Qed.

Section MonitorFacts.

Variable W : world.
Variable hdr : header.

(** ** The namespace polls issue reads and sleeps only *)

Lemma read_namespace_grows pid target p :
  grows p [EvReadNs pid (w_mnt_ns W (now p) pid)]
        (read_namespace W pid target p).2.
Proof. unfold read_namespace. destruct (w_mnt_ns W (now p) pid); apply grows_emit. Qed.

Lemma read_namespace_value pid target p :
  (read_namespace W pid target p).1.2
  = default target (w_mnt_ns W (now p) pid).
Proof. unfold read_namespace. by destruct (w_mnt_ns W (now p) pid). Qed.

Lemma ns_round_grows pid zs : forall ns p,
  exists evs, grows p evs (ns_round W pid zs ns p).2
              /\ Forall (poll_event pid) evs.
Proof.
  induction zs as [|z zs IH]; intros ns p; simpl.
  - exists []. split; [apply grows_refl | constructor].
  - pose proof (read_namespace_grows pid ns p) as Hr.
    destruct (read_namespace W pid ns p) as [[r ns1] p1]; simpl in Hr.
    destruct (streq ns1 z); simpl.
    + eexists. split.
      * eapply grows_trans; [exact Hr | apply grows_emit].
      * repeat constructor.
    + destruct (IH ns1 p1) as (evs & Hg & Hall).
      eexists. split.
      * eapply grows_trans; [exact Hr | exact Hg].
      * constructor; [reflexivity | exact Hall].
Qed.

Lemma ns_poll_grows pid zs : forall fuel ns p,
  exists evs, grows p evs (polled_proc (ns_poll W fuel pid zs ns p))
              /\ Forall (poll_event pid) evs.
Proof.
  induction fuel as [|fuel IH]; intros ns p; simpl.
  - exists []. split; [apply grows_refl | constructor].
  - destruct (ns_round_grows pid zs ns p) as (evs & Hg & Hall).
    destruct (ns_round W pid zs ns p) as [[ret ns1] p1]; simpl in Hg.
    destruct (ret =? 0).
    + destruct (IH ns1 p1) as (evs' & Hg' & Hall').
      exists (evs ++ evs'). split.
      * eapply grows_trans; eassumption.
      * apply Forall_app; by split.
    + by exists evs.
Qed.

End MonitorFacts.

(** ** The notification parser *)

Lemma digit_not_space c : isdigit c = true -> isspace c = false.
Proof.
  unfold isdigit, isspace. intros H.
  apply andb_true_iff in H as [H1 H2].
  apply Nat.leb_le in H1. apply Nat.leb_le in H2.
  apply orb_false_iff. split.
  - apply Nat.eqb_neq. lia.
  - apply andb_false_iff. right. apply Nat.leb_gt. lia.
Qed.

Lemma digit_not_char c (x : ascii) :
  isdigit c = true -> isdigit x = false -> Ascii.eqb c x = false.
Proof.
  intros Hc Hx. destruct (Ascii.eqb_spec c x) as [->|]; [|done].
  by rewrite Hc in Hx.
Qed.

Lemma all_chars_impl (f g : ascii -> bool) s :
  (forall c, f c = true -> g c = true) ->
  all_chars f s = true -> all_chars g s = true.
Proof.
  intros Hfg. induction s as [|c s IH]; simpl; [done|].
  intros H. apply andb_true_iff in H as [Hc Hs].
  apply andb_true_iff. split; [by apply Hfg | by apply IH].
Qed.

Lemma number_no_comma s : all_chars isdigit s = true -> no_comma s = true.
Proof.
  apply all_chars_impl. intros c Hc. unfold is_comma.
  by rewrite (digit_not_char c ",").
Qed.

Lemma word_no_comma s :
  all_chars (fun c => negb (isspace c) && negb (is_comma c)) s = true ->
  no_comma s = true.
Proof.
  apply all_chars_impl. intros c Hc.
  by apply andb_true_iff in Hc as [_ Hc].
Qed.

(** Blanking the commas goes through a field and turns a separator
    into a space. *)
Lemma blank_commas_field x y :
  no_comma x = true ->
  blank_commas (x +:+ String "," y)
  = (x +:+ String " " (blank_commas y).1, (blank_commas y).2 + 1).
Proof.
  induction x as [|c x IH]; simpl; intros H.
  - by destruct (blank_commas y).
  - apply andb_true_iff in H as [Hc Hx].
    rewrite (IH Hx). unfold is_comma in Hc.
    by destruct (Ascii.eqb c ",").
Qed.

Lemma blank_commas_last x :
  no_comma x = true -> blank_commas x = (x, 0).
Proof.
  induction x as [|c x IH]; simpl; intros H; [done|].
  apply andb_true_iff in H as [Hc Hx].
  rewrite (IH Hx). unfold is_comma in Hc.
  by destruct (Ascii.eqb c ",").
Qed.

Lemma scan_digits_field x r : forall acc,
  all_chars isdigit x = true ->
  scan_digits acc (x +:+ String " " r) = (decimal_from acc x, String " " r).
Proof.
  induction x as [|c x IH]; simpl; intros acc H; [done|].
  apply andb_true_iff in H as [Hc Hx].
  rewrite Hc. by apply IH.
Qed.

(** [%d] on a number followed by a space. *)
Lemma scan_int_field x r :
  is_number x = true ->
  scan_int (x +:+ String " " r)
  = Conv (wrap_int (saturate (decimal x))) (String " " r).
Proof.
  unfold is_number. intros H. apply andb_true_iff in H as [Hne Hx].
  destruct x as [|c x]; [done|].
  pose proof Hx as Hall. simpl in Hx.
  apply andb_true_iff in Hx as [Hc Hx].
  unfold scan_int. simpl skip_space.
  rewrite (digit_not_space c Hc).
  rewrite (digit_not_char c "-" Hc), (digit_not_char c "+" Hc) by done.
  rewrite Hc.
  change (String c (x +:+ String " " r)) with (String c x +:+ String " " r).
  by rewrite scan_digits_field.
Qed.

Lemma skip_space_field x r :
  is_number x = true ->
  skip_space (String " " (x +:+ r)) = x +:+ r.
Proof.
  unfold is_number. intros H. apply andb_true_iff in H as [Hne Hx].
  destruct x as [|c x]; [done|]. simpl in Hx.
  apply andb_true_iff in Hx as [Hc Hx].
  simpl. by rewrite (digit_not_space c Hc).
Qed.

Lemma scan_token_word w r : forall n,
  all_chars (fun c => negb (isspace c) && negb (is_comma c)) w = true ->
  (scan_token n (w +:+ String " " r)).1 = first_chars n w.
Proof.
  induction w as [|c w IH]; intros n H.
  - by destruct n.
  - simpl in H. apply andb_true_iff in H as [Hc Hw].
    apply andb_true_iff in Hc as [Hc _]. apply negb_true_iff in Hc.
    destruct n as [|n]; [done|]. simpl. rewrite Hc.
    specialize (IH n Hw).
    destruct (scan_token n (w +:+ String " " r)). simpl in *. by rewrite IH.
Qed.

Lemma skip_space_stop c r :
  isspace c = false -> skip_space (String c r) = String c r.
Proof. simpl. by intros ->. Qed.

(** [%256s] on a word followed by a space, with a space before it. *)
Lemma scan_str_word w r :
  is_word w = true ->
  exists rest,
    scan_str (Some 256%nat) (skip_space (String " " (w +:+ String " " r)))
    = Conv (first_chars 256 w) rest.
Proof.
  unfold is_word. intros H. apply andb_true_iff in H as [Hne Hw].
  destruct w as [|c w]; [done|].
  pose proof Hw as Hall. simpl in Hw.
  apply andb_true_iff in Hw as [Hc Hw].
  apply andb_true_iff in Hc as [Hc _]. apply negb_true_iff in Hc.
  change (skip_space (String " " (String c w +:+ String " " r)))
    with (skip_space (String c (w +:+ String " " r))).
  unfold scan_str. rewrite !(skip_space_stop c _ Hc).
  change (String c (w +:+ String " " r)) with (String c w +:+ String " " r).
  pose proof (scan_token_word (String c w) r 256 Hall) as Ht.
  destruct (scan_token 256 (String c w +:+ String " " r)) as [t rest].
  simpl in Ht. subst t. by exists rest.
Qed.

Lemma record6_fields a b c w t u :
  record6 a b c w t u
  = String "[" (a +:+ String "," (b +:+ String "," (c +:+ String "," (
      w +:+ String "," (t +:+ String "," u))))).
Proof. reflexivity. Qed.

Lemma record7_fields a b c d w t u :
  record7 a b c d w t u
  = String "[" (a +:+ String "," (b +:+ String "," (c +:+ String "," (
      d +:+ String "," (w +:+ String "," (t +:+ String "," u)))))).
Proof. reflexivity. Qed.

Lemma blank_commas_bracket r :
  blank_commas (String "[" r)
  = (String "[" (blank_commas r).1, (blank_commas r).2).
Proof. simpl. by destruct (blank_commas r). Qed.

Lemma parse_record6 a b c w t u :
  is_number a = true -> is_number b = true -> is_number c = true ->
  is_word w = true -> no_comma t = true -> no_comma u = true ->
  parse_line (record6 a b c w t u)
  = if fits 256 (first_chars 256 w)
    then Parsed (wrap_int (saturate (decimal b))) (first_chars 256 w)
    else Overrun.
Proof.
  intros Ha Hb Hc Hw Ht Hu.
  assert (Ha' := Ha). assert (Hb' := Hb). assert (Hc' := Hc).
  assert (Hw' := Hw).
  apply andb_true_iff in Ha' as [_ Ha'].
  apply andb_true_iff in Hb' as [_ Hb'].
  apply andb_true_iff in Hc' as [_ Hc'].
  apply andb_true_iff in Hw' as [_ Hw'].
  rewrite record6_fields. unfold parse_line. simpl strchr. cbv iota.
  rewrite blank_commas_bracket.
  rewrite !blank_commas_field
    by auto using number_no_comma, word_no_comma.
  rewrite blank_commas_last by done. cbn [fst snd]. simpl (_ =? 6).
  cbv iota. unfold sscanf, fmt_six.
  cbn [sscanf_from]. simpl (Ascii.eqb "[" "[").
  rewrite scan_int_field by done.
  cbn [sscanf_from]. rewrite skip_space_field by done.
  rewrite scan_int_field by done.
  cbn [sscanf_from]. rewrite skip_space_field by done.
  rewrite scan_int_field by done.
  cbn [sscanf_from].
  destruct (scan_str_word w (t +:+ String " " u) Hw) as (rest & ->).
  reflexivity.
Qed.

Lemma parse_record7 a b c d w t u :
  is_number a = true -> is_number b = true -> is_number c = true ->
  is_number d = true ->
  is_word w = true -> no_comma t = true -> no_comma u = true ->
  parse_line (record7 a b c d w t u)
  = if fits 256 (first_chars 256 w)
    then Parsed (wrap_int (saturate (decimal b))) (first_chars 256 w)
    else Overrun.
Proof.
  intros Ha Hb Hc Hd Hw Ht Hu.
  assert (Ha' := Ha). assert (Hb' := Hb). assert (Hc' := Hc).
  assert (Hd' := Hd). assert (Hw' := Hw).
  apply andb_true_iff in Ha' as [_ Ha'].
  apply andb_true_iff in Hb' as [_ Hb'].
  apply andb_true_iff in Hc' as [_ Hc'].
  apply andb_true_iff in Hd' as [_ Hd'].
  apply andb_true_iff in Hw' as [_ Hw'].
  rewrite record7_fields. unfold parse_line. simpl strchr. cbv iota.
  rewrite blank_commas_bracket.
  rewrite !blank_commas_field
    by auto using number_no_comma, word_no_comma.
  rewrite blank_commas_last by done. cbn [fst snd]. simpl (_ =? 6).
  cbv iota. unfold sscanf, fmt_seven.
  cbn [sscanf_from]. simpl (Ascii.eqb "[" "[").
  rewrite scan_int_field by done.
  cbn [sscanf_from]. rewrite skip_space_field by done.
  rewrite scan_int_field by done.
  cbn [sscanf_from]. rewrite skip_space_field by done.
  rewrite scan_int_field by done.
  cbn [sscanf_from]. rewrite skip_space_field by done.
  rewrite scan_int_field by done.
  cbn [sscanf_from].
  destruct (scan_str_word w (t +:+ String " " u) Hw) as (rest & ->).
  reflexivity.
Qed.

(** C2 (amended): on both records of the specification the parser
    returns the process id 1000 and the process name "1".  The process
    id is the second field; the name is the fifth field of the record
    with six commas and the fourth field of the other one. *)
Theorem spec_records_parse :
  parse_line spec_record7 = Parsed 1000 "1"
  /\ parse_line spec_record6 = Parsed 1000 "1".
Proof. split; vm_compute; reflexivity. Qed.

(** C2 as stated fails on both records. *)
Lemma spec_records_do_not_give_5555 :
  parse_line spec_record7 <> Parsed 5555 "com.example.app"
  /\ parse_line spec_record6 <> Parsed 5555 "com.example.app".
Proof.
  split; intros H; vm_compute in H; discriminate H.
Qed.

(** The layouts the two formats are made for. *)
Example parse_six_fields :
  parse_line "[0,5555,10089,com.example.app,activity,.Main]"
  = Parsed 5555 "com.example.app".
Proof. vm_compute. reflexivity. Qed.

Example parse_seven_fields :
  parse_line "[0,5555,10089,2,com.example.app,activity,.Main]"
  = Parsed 5555 "com.example.app".
Proof. vm_compute. reflexivity. Qed.

(** A process id field beyond the range of an int: the value is held
    to 64 bits first and its low 32 bits are stored. *)
Example pid_field_saturates :
  parse_line "[0,9223372036854775808,10089,com.example.app,activity,.Main]"
  = Parsed (-1) "com.example.app"
  /\ parse_line "[0,4294967301,10089,com.example.app,activity,.Main]"
     = Parsed 5 "com.example.app".
Proof. split; vm_compute; reflexivity. Qed.

(** A line with a bracket that does not scan is dropped: the turn ends
    with nothing done. *)
Lemma unparsed_line_dropped W hdr fuel hide_list log p :
  parse_line log = Dropped ->
  handle_log W hdr fuel hide_list (Some log) p = Done p.
Proof. unfold handle_log. by intros ->. Qed.

Example short_line_dropped :
  parse_line "am_proc_start: [0,5555" = Dropped.
Proof. vm_compute. reflexivity. Qed.

(** C7: a line without an opening bracket is not dropped.  strchr
    returns NULL for it and the comma loop hands that pointer to strchr
    again. *)
Theorem line_without_bracket_faults W hdr fuel hide_list log p :
  strchr log "[" = None ->
  parse_line log = Fault
  /\ handle_log W hdr fuel hide_list (Some log) p = Segv p.
Proof.
  intros Hnone. unfold handle_log, parse_line. by rewrite Hnone.
Qed.

Lemma line_without_bracket_faults_witness :
  strchr "am_proc_start" "[" = None
  /\ parse_line "am_proc_start" = Fault
  /\ handle_log sample_world sample_header 1 ["com.example.app"]
                (Some "am_proc_start") (started sample_init sample_zygote)
     = Segv (started sample_init sample_zygote).
Proof.
  split; [reflexivity|].
  apply (line_without_bracket_faults
           sample_world sample_header 1 ["com.example.app"]
           "am_proc_start" (started sample_init sample_zygote)).
  reflexivity.
Defined.

Lemma decimal_from_nonneg s : forall acc,
  0 <= acc -> all_chars isdigit s = true -> 0 <= decimal_from acc s.
Proof.
  induction s as [|c s IH]; simpl; intros acc Hacc H; [done|].
  apply andb_true_iff in H as [Hc Hs].
  apply IH; [|done]. unfold isdigit in Hc. unfold digit_val.
  apply andb_true_iff in Hc as [Hc _]. apply Nat.leb_le in Hc. lia.
Qed.

Lemma first_chars_length n : forall s,
  (n <= String.length s)%nat -> String.length (first_chars n s) = n.
Proof.
  induction n as [|n IH]; intros s Hn; [done|].
  destruct s as [|c s]; simpl in *; [lia|].
  rewrite IH; lia.
Qed.

Lemma long_name_fills_buffer w :
  (256 <= String.length w)%nat -> fits 256 (first_chars 256 w) = false.
Proof.
  intros Hlen. unfold fits. rewrite first_chars_length by done.
  reflexivity.
Qed.

(** C8: a record whose process-name field has 256 characters or more,
    so every record whose name exceeds the bound, is not dropped.  In
    either layout [%256s] converts the first 256 characters of the name,
    and they are stored with their terminator, 257 bytes, in
    [char processName[256]]: sscanf writes past the array, and the turn
    of the loop has no defined result. *)
Theorem long_name_overruns_buffer W hdr fuel hide_list a b c d w t u p :
  is_number a = true -> is_number b = true -> is_number c = true ->
  is_number d = true ->
  is_word w = true -> no_comma t = true -> no_comma u = true ->
  (256 <= String.length w)%nat ->
  parse_line (record6 a b c w t u) = Overrun
  /\ parse_line (record7 a b c d w t u) = Overrun
  /\ handle_log W hdr fuel hide_list (Some (record6 a b c w t u)) p = Segv p
  /\ handle_log W hdr fuel hide_list (Some (record7 a b c d w t u)) p
     = Segv p.
Proof.
  intros Ha Hb Hc Hd Hw Ht Hu Hlen.
  assert (H6 : parse_line (record6 a b c w t u) = Overrun).
  { rewrite parse_record6 by done. by rewrite long_name_fills_buffer. }
  assert (H7 : parse_line (record7 a b c d w t u) = Overrun).
  { rewrite parse_record7 by done. by rewrite long_name_fills_buffer. }
  unfold handle_log. by rewrite H6, H7.
Qed.

Lemma long_name_overruns_buffer_witness :
  (256 <= String.length long_name)%nat
  /\ parse_line (record6 "0" "1234" "10089" long_name "activity" ".Main]")
     = Overrun
  /\ parse_line (record7 "0" "1234" "10089" "2" long_name "activity" ".Main]")
     = Overrun
  /\ handle_log sample_world sample_header 1 ["com.example.app"]
       (Some (record6 "0" "1234" "10089" long_name "activity" ".Main]"))
       (started sample_init sample_zygote)
     = Segv (started sample_init sample_zygote)
  /\ handle_log sample_world sample_header 1 ["com.example.app"]
       (Some (record7 "0" "1234" "10089" "2" long_name "activity" ".Main]"))
       (started sample_init sample_zygote)
     = Segv (started sample_init sample_zygote).
Proof.
  split; [vm_compute; lia|].
  apply (long_name_overruns_buffer
           sample_world sample_header 1 ["com.example.app"]
           "0" "1234" "10089" "2" long_name "activity" ".Main]"
           (started sample_init sample_zygote));
    try (vm_compute; reflexivity).
  vm_compute. lia.
Defined.

(** The record with a name of 300 characters, and the two names at the
    edge of the array: 255 characters are stored, 256 are one too
    many. *)
Example long_record_overruns :
  String.length long_name = 300%nat /\ parse_line long_record = Overrun.
Proof. split; vm_compute; reflexivity. Qed.

Example name_of_255_characters_is_stored :
  parse_line (record6 "0" "1234" "10089" (replicate_char 255 "a")
                      "activity" ".Main]")
  = Parsed 1234 (replicate_char 255 "a").
Proof. vm_compute. reflexivity. Qed.

Example name_of_256_characters_overruns :
  parse_line (record6 "0" "1234" "10089" (replicate_char 256 "a")
                      "activity" ".Main]")
  = Overrun.
Proof. vm_compute. reflexivity. Qed.

(** ** Scanning the hide list *)

Section ScanFacts.

Variable W : world.
Variable hdr : header.

Lemma streq_true a b : streq a b = true <-> a = b.
Proof. apply String.eqb_eq. Qed.

Lemma streq_false a b : streq a b = false <-> a <> b.
Proof. apply String.eqb_neq. Qed.

Lemma poll_scan_event pid evs :
  Forall (poll_event pid) evs -> Forall (scan_event pid) evs.
Proof.
  intros H. eapply Forall_impl; [exact H|].
  intros [] He; simpl in *; done.
Qed.

Lemma dispatch_trace pid p :
  trace (dispatch W hdr pid p)
  = trace p ++ hide_events hdr ++ [EvFork pid (w_getpid W)].
Proof.
  unfold dispatch, hide_markers, hide_events. simpl.
  by rewrite <- !app_assoc.
Qed.

Lemma dispatch_hide_queue pid p :
  hide_queue (dispatch W hdr pid p) = wrap_int (hide_queue p + 1).
Proof. reflexivity. Qed.

Lemma dispatch_spawners pid p :
  spawners (dispatch W hdr pid p) = spawners p.
Proof. reflexivity. Qed.

(** Either nobody was frozen and the scan only polled, or the scan
    ended in one dispatch right after the first delivered SIGSTOP. *)
Lemma scan_hide_list_effect fuel pid name : forall lines ns p,
  let o := scan_hide_list W hdr fuel pid name ns lines p in
  (exists evs, grows p evs (outcome_proc o) /\ Forall (scan_event pid) evs)
  \/ (exists evs p2,
         o = Done (dispatch W hdr pid p2)
         /\ grows p (evs ++ [EvKill pid SIGSTOP true]) p2
         /\ Forall (scan_event pid) evs
         /\ exists t, w_kill W t pid SIGSTOP = true).
Proof.
  induction lines as [|line rest IH]; intros ns p; simpl.
  - left. exists []. split; [apply grows_refl | constructor].
  - destruct (streq name line); [|apply IH].
    destruct (ns_poll_grows W pid (spawners p) fuel ns p) as (evs & Hg & Hall).
    apply poll_scan_event in Hall.
    destruct (ns_poll W fuel pid (spawners p) ns p) as [ns1 p1|p1];
      simpl in Hg.
    + destruct (w_kill W (now p1) pid SIGSTOP) eqn:Hk; simpl.
      * right. exists evs, (emit (EvKill pid SIGSTOP true) p1).
        split; [done|]. split; [|split; [done | by eexists]].
        eapply grows_trans; [exact Hg | apply grows_emit].
      * set (p2 := emit (EvKill pid SIGSTOP false) p1).
        assert (Hg2 : grows p (evs ++ [EvKill pid SIGSTOP false]) p2).
        { eapply grows_trans; [exact Hg | apply grows_emit]. }
        assert (Hall2 : Forall (scan_event pid)
                               (evs ++ [EvKill pid SIGSTOP false])).
        { apply Forall_app. split; [done | by repeat constructor]. }
        destruct (IH ns1 p2) as [(evs' & Hg' & Hall')
                                |(evs' & p3 & Ho & Hg' & Hall' & Hdel)].
        -- left. eexists. split; [eapply grows_trans; eassumption|].
           apply Forall_app; by split.
        -- right. exists ((evs ++ [EvKill pid SIGSTOP false]) ++ evs'), p3.
           split; [done|]. split; [|split; [|done]].
           ++ rewrite <- app_assoc. eapply grows_trans; eassumption.
           ++ apply Forall_app; by split.
    + left. by exists evs.
Qed.

Lemma scan_hide_list_absent fuel pid name : forall lines ns p,
  name ∉ lines -> scan_hide_list W hdr fuel pid name ns lines p = Done p.
Proof.
  induction lines as [|line rest IH]; intros ns p Hn; simpl; [done|].
  apply not_elem_of_cons in Hn as [Hne Hn].
  apply streq_false in Hne. rewrite Hne. by apply IH.
Qed.

End ScanFacts.

(** ** The in-flight counter *)

Section CounterFacts.

Variable W : world.
Variable hdr : header.

Lemma pending_app a b : pending (a ++ b) = pending a + pending b.
Proof.
  induction a as [|e a IH]; simpl; [lia|].
  destruct e as [| | | | | | | | | | [] | | | | | | |]; lia.
Qed.

Lemma pending_scan_events pid evs :
  Forall (scan_event pid) evs -> pending evs = 0.
Proof.
  induction 1 as [|e evs He _ IH]; [done|].
  destruct e; simpl in *; done.
Qed.

Lemma no_symlink_scan_events pid evs t l :
  Forall (scan_event pid) evs -> EvSymlink t l ∉ evs.
Proof.
  intros Hall Hin. rewrite Forall_forall in Hall.
  by apply Hall in Hin.
Qed.

(** One turn of the loop leaves the counter alone or adds one to it
    together with one fork, and restores nothing. *)
Lemma handle_log_effect fuel hide_list log p p' :
  handle_log W hdr fuel hide_list log p = Done p' ->
  exists evs,
    trace p' = trace p ++ evs
    /\ (forall t l, EvSymlink t l ∉ evs)
    /\ ((hide_queue p' = hide_queue p /\ pending evs = 0)
        \/ (hide_queue p' = wrap_int (hide_queue p + 1) /\ pending evs = 1)).
Proof.
  unfold handle_log. intros H.
  assert (Hnil : exists evs,
             trace p = trace p ++ evs
             /\ (forall t l, EvSymlink t l ∉ evs)
             /\ ((hide_queue p = hide_queue p /\ pending evs = 0)
                 \/ (hide_queue p = wrap_int (hide_queue p + 1)
                     /\ pending evs = 1))).
  { exists []. rewrite app_nil_r. split; [done|].
    split; [intros; apply not_elem_of_nil | by left]. }
  destruct log as [line|]; [|by inversion H; subst].
  destruct (parse_line line) as [| | |pid name];
    [done | done | by inversion H; subst |].
  pose proof (scan_hide_list_effect W hdr fuel pid name hide_list
                (w_garbage W (now p)) (emit EvLock p)) as He.
  cbv zeta in He.
  destruct (scan_hide_list W hdr fuel pid name (w_garbage W (now p))
              hide_list (emit EvLock p)) as [p2|p2|p2];
    [|done|done].
  inversion H; subst p'; clear H.
  destruct He as [(evs & Hg & Hall)|(evs & p3 & Ho & Hg & Hall & _)];
    simpl in Hg.
  - exists ([EvLock] ++ evs ++ [EvUnlock]).
    rewrite trace_emit, (grows_trace _ _ _ Hg), trace_emit.
    split; [by rewrite <- !app_assoc|]. split.
    + intros t l Hin. apply elem_of_app in Hin as [Hin|Hin];
        [by apply list_elem_of_singleton in Hin|].
      apply elem_of_app in Hin as [Hin|Hin];
        [by eapply no_symlink_scan_events | ].
      by apply list_elem_of_singleton in Hin.
    + left. split; [exact (grows_hide_queue _ _ _ Hg)|].
      rewrite !pending_app, (pending_scan_events _ _ Hall). reflexivity.
  - inversion Ho; subst p2; clear Ho.
    exists ([EvLock] ++ (evs ++ [EvKill pid SIGSTOP true])
              ++ (hide_events hdr ++ [EvFork pid (w_getpid W)])
              ++ [EvUnlock]).
    rewrite trace_emit, dispatch_trace, (grows_trace _ _ _ Hg), trace_emit.
    split; [by rewrite <- !app_assoc|]. split.
    + intros t l Hin.
      apply elem_of_app in Hin as [Hin|Hin];
        [by apply list_elem_of_singleton in Hin|].
      apply elem_of_app in Hin as [Hin|Hin].
      { apply elem_of_app in Hin as [Hin|Hin];
          [by eapply no_symlink_scan_events|].
        by apply list_elem_of_singleton in Hin. }
      apply elem_of_app in Hin as [Hin|Hin];
        [|by apply list_elem_of_singleton in Hin].
      unfold hide_events in Hin. simpl in Hin.
      repeat (apply elem_of_cons in Hin as [Hin|Hin]; [done|]).
      by apply elem_of_nil in Hin.
    + right. split.
      * simpl. f_equal. f_equal. exact (grows_hide_queue _ _ _ Hg).
      * rewrite !pending_app, (pending_scan_events _ _ Hall). reflexivity.
Qed.

Lemma hide_done_hide_queue p :
  hide_queue (hide_done hdr p) = wrap_int (hide_queue p - 1).
Proof.
  unfold hide_done. simpl.
  by destruct (wrap_int (hide_queue p - 1) =? 0).
Qed.

Lemma hide_done_trace p :
  trace (hide_done hdr p)
  = trace p ++ EvDelivered HIDE_DONE
            :: (if wrap_int (hide_queue p - 1) =? 0
                then restore_events hdr else []).
Proof.
  unfold hide_done, restore_markers, restore_events. simpl.
  destruct (wrap_int (hide_queue p - 1) =? 0); simpl; [|done].
  by rewrite <- !app_assoc.
Qed.

(** The counter is the number of forked workers that have not reported. *)
Lemma reachable_counter p :
  reachable W hdr p ->
  hide_queue p = pending (trace p) /\ 0 <= pending (trace p) < 2 ^ 31.
Proof.
  induction 1 as [p Hq Ht | p fuel hl log p' _ [IHq IHb] Hlt Hrun
                 | p _ [IHq IHb] Hpos].
  - rewrite Hq, Ht. simpl. lia.
  - destruct (handle_log_effect _ _ _ _ _ Hrun)
      as (evs & Ht & _ & [[Hq Hp]|[Hq Hp]]);
      rewrite Ht, pending_app, Hp, Hq.
    + lia.
    + rewrite wrap_int_small by lia. lia.
  - rewrite hide_done_hide_queue, hide_done_trace, pending_app.
    rewrite wrap_int_small by lia.
    destruct (hide_queue p - 1 =? 0); simpl; lia.
Qed.

(** C3: between the turns of the monitor loop the in-flight counter is
    never negative: it is the number of forked workers that have not
    reported.  A HIDE_DONE from such a worker takes exactly one off it;
    the handler restores the markers when that leaves zero and does
    nothing more when it leaves another value; a turn of the loop
    restores nothing. *)
Theorem hide_queue_counts_workers p :
  reachable W hdr p ->
  0 <= hide_queue p
  /\ hide_queue p = pending (trace p)
  /\ (0 < pending (trace p) ->
      hide_queue (hide_done hdr p) = hide_queue p - 1
      /\ (hide_queue (hide_done hdr p) = 0 ->
          trace (hide_done hdr p)
          = trace p ++ EvDelivered HIDE_DONE :: restore_events hdr)
      /\ (hide_queue (hide_done hdr p) <> 0 ->
          trace (hide_done hdr p) = trace p ++ [EvDelivered HIDE_DONE]))
  /\ (forall fuel hide_list log p',
         handle_log W hdr fuel hide_list log p = Done p' ->
         forall t l,
           EvSymlink t l ∉ drop (List.length (trace p)) (trace p')).
Proof.
  intros Hr. destruct (reachable_counter p Hr) as [Hq Hb].
  split; [lia|]. split; [done|]. split.
  - intros Hpos.
    rewrite hide_done_hide_queue, hide_done_trace.
    rewrite wrap_int_small by lia.
    split; [done|]. split; intros Hz.
    + apply Z.eqb_eq in Hz. by rewrite Hz.
    + apply Z.eqb_neq in Hz. by rewrite Hz.
  - intros fuel hl log p' Hrun t l.
    destruct (handle_log_effect _ _ _ _ _ Hrun) as (evs & Ht & Hno & _).
    rewrite Ht, drop_app_length. apply Hno.
Qed.

End CounterFacts.

Lemma dispatched_reachable : reachable sample_world sample_header dispatched.
Proof.
  eapply (reach_log _ _ (started sample_init sample_zygote)
                    1 ["com.example.app"] (Some sample_log)).
  - apply reach_start; reflexivity.
  - vm_compute. reflexivity.
  - vm_compute. reflexivity.
Defined.

Lemma hide_queue_counts_workers_witness :
  0 <= hide_queue dispatched
  /\ hide_queue dispatched = pending (trace dispatched)
  /\ (0 < pending (trace dispatched) ->
      hide_queue (hide_done sample_header dispatched)
      = hide_queue dispatched - 1
      /\ (hide_queue (hide_done sample_header dispatched) = 0 ->
          trace (hide_done sample_header dispatched)
          = trace dispatched
              ++ EvDelivered HIDE_DONE :: restore_events sample_header)
      /\ (hide_queue (hide_done sample_header dispatched) <> 0 ->
          trace (hide_done sample_header dispatched)
          = trace dispatched ++ [EvDelivered HIDE_DONE]))
  /\ (forall fuel hide_list log p',
         handle_log sample_world sample_header fuel hide_list log dispatched
         = Done p' ->
         forall t l,
           EvSymlink t l ∉ drop (List.length (trace dispatched)) (trace p')).
Proof.
  apply (hide_queue_counts_workers sample_world sample_header dispatched).
  exact dispatched_reachable.
Defined.

(** ** A candidate that is matched *)

Section CandidateFacts.

Variable W : world.
Variable hdr : header.

(** With no duplicate in the hide list the scan comes down to its one
    matching entry. *)
Lemma scan_hide_list_unique fuel pid name : forall lines ns p,
  NoDup lines -> name ∈ lines ->
  scan_hide_list W hdr fuel pid name ns lines p
  = match ns_poll W fuel pid (spawners p) ns p with
    | PollSpin p1 => Spin p1
    | PollDone _ p1 =>
        let ok := w_kill W (now p1) pid SIGSTOP in
        let p2 := emit (EvKill pid SIGSTOP ok) p1 in
        if ok then Done (dispatch W hdr pid p2) else Done p2
    end.
Proof.
  induction lines as [|line rest IH]; intros ns p Hnd Hin.
  - by apply elem_of_nil in Hin.
  - apply NoDup_cons in Hnd as [Hfresh Hnd]. simpl.
    destruct (streq name line) eqn:Heq.
    + apply streq_true in Heq. subst line.
      destruct (ns_poll W fuel pid (spawners p) ns p) as [ns1 p1|p1]; [|done].
      cbv zeta. destruct (w_kill W (now p1) pid SIGSTOP); simpl; [done|].
      by apply scan_hide_list_absent.
    + apply streq_false in Heq.
      apply elem_of_cons in Hin as [Hin|Hin]; [done|].
      by apply IH.
Qed.

(** C9: when the suspend signal cannot be delivered to the candidate
    of a notification, the turn of the loop changes nothing but the
    trace, and no marker is touched and no worker forked in it.  With
    the candidate in a duplicate-free hide list and its poll over, the
    turn ends with the lock released after the polls and the failed
    signal. *)
Theorem lost_race_abandons_candidate fuel hide_list log pid name p :
  parse_line log = Parsed pid name ->
  (forall t, w_kill W t pid SIGSTOP = false) ->
  (exists evs,
      grows p evs (outcome_proc (handle_log W hdr fuel hide_list (Some log) p))
      /\ Forall (fun e => is_dispatch e = false) evs)
  /\ (NoDup hide_list ->
      name ∈ hide_list ->
      forall ns1 p1,
        ns_poll W fuel pid (spawners p) (w_garbage W (now p)) (emit EvLock p)
        = PollDone ns1 p1 ->
        exists polls p',
          handle_log W hdr fuel hide_list (Some log) p = Done p'
          /\ grows p ([EvLock] ++ polls
                              ++ [EvKill pid SIGSTOP false; EvUnlock]) p'
          /\ Forall (poll_event pid) polls).
Proof.
  intros Hparse Hkill. split.
  - unfold handle_log. rewrite Hparse.
    pose proof (scan_hide_list_effect W hdr fuel pid name hide_list
                  (w_garbage W (now p)) (emit EvLock p)) as He.
    cbv zeta in He.
    destruct He as [(evs & Hg & Hall)|(evs & p2 & _ & _ & _ & t & Ht)];
      [|by rewrite Hkill in Ht].
    assert (Hquiet : Forall (fun e => is_dispatch e = false) evs).
    { eapply Forall_impl; [exact Hall|].
      intros e He. destruct e; simpl in *; done. }
    destruct (scan_hide_list W hdr fuel pid name (w_garbage W (now p))
                hide_list (emit EvLock p)) as [p2|p2|p2]; simpl in Hg |- *.
    + exists ([EvLock] ++ evs ++ [EvUnlock]). split.
      * eapply (grows_trans _ [EvLock]); [apply grows_emit|].
        eapply grows_trans; [exact Hg | apply grows_emit].
      * constructor; [done|]. apply Forall_app. split; [done|].
        by repeat constructor.
    + exists ([EvLock] ++ evs). split.
      * eapply (grows_trans _ [EvLock]); [apply grows_emit | exact Hg].
      * by constructor.
    + exists ([EvLock] ++ evs). split.
      * eapply (grows_trans _ [EvLock]); [apply grows_emit | exact Hg].
      * by constructor.
  - intros Hnd Hin ns1 p1 Hpoll.
    destruct (ns_poll_grows W pid (spawners p) fuel
                (w_garbage W (now p)) (emit EvLock p)) as (polls & Hg & Hall).
    rewrite Hpoll in Hg. simpl in Hg.
    exists polls, (emit EvUnlock (emit (EvKill pid SIGSTOP false) p1)).
    split; [|split; [|exact Hall]].
    + unfold handle_log. rewrite Hparse.
      rewrite scan_hide_list_unique by done.
      change (spawners (emit EvLock p)) with (spawners p).
      rewrite Hpoll. cbv zeta. by rewrite Hkill.
    + eapply (grows_trans _ [EvLock]); [apply grows_emit|].
      eapply grows_trans; [exact Hg|].
      eapply (grows_trans _ [_] _ [_]); apply grows_emit.
Qed.

(** A round that reports no match has read the namespace once per
    spawner and found another fingerprint each time. *)
Lemma ns_round_clear pid : forall zs ns p ret ns' p',
  ns_round W pid zs ns p = (ret, ns', p') ->
  ret <> 0 ->
  exists links,
    trace p' = trace p ++ map (EvReadNs pid) links
    /\ Forall2 (fun b z => b <> z) (buffers ns links) zs.
Proof.
  induction zs as [|z zs IH]; intros ns p ret ns' p' Hrun Hret;
    simpl in Hrun.
  - inversion Hrun; subst. exists []. rewrite app_nil_r. by split.
  - unfold read_namespace in Hrun.
    set (link := w_mnt_ns W (now p) pid) in Hrun.
    assert (Hstep : exists r,
               match link with
               | Some l => (0, l, emit (EvReadNs pid link) p)
               | None => (1, ns, emit (EvReadNs pid link) p)
               end = (r, default ns link, emit (EvReadNs pid link) p)).
    { destruct link; by eexists. }
    destruct Hstep as (r & Hstep). rewrite Hstep in Hrun.
    destruct (streq (default ns link) z) eqn:Heq.
    + inversion Hrun; subst. done.
    + apply streq_false in Heq.
      destruct (IH _ _ _ _ _ Hrun Hret) as (links & Ht & Hall).
      exists (link :: links). split.
      * rewrite Ht, trace_emit. by rewrite <- app_assoc.
      * simpl. by constructor.
Qed.

Lemma ns_poll_clear pid zs : forall fuel ns p ns' p',
  ns_poll W fuel pid zs ns p = PollDone ns' p' ->
  exists evs, trace p' = trace p ++ evs /\ clear_round pid zs evs.
Proof.
  induction fuel as [|fuel IH]; intros ns p ns' p' Hrun; simpl in Hrun;
    [done|].
  destruct (ns_round_grows W pid zs ns p) as (evs1 & Hg1 & _).
  destruct (ns_round W pid zs ns p) as [[ret ns1] p1] eqn:Hround.
  simpl in Hg1. destruct (ret =? 0) eqn:Hret.
  - destruct (IH _ _ _ _ Hrun) as (evs & Ht & before & b & links & -> & Hall).
    exists (evs1 ++ before ++ map (EvReadNs pid) links). split.
    + rewrite Ht, (grows_trace _ _ _ Hg1). by rewrite <- app_assoc.
    + exists (evs1 ++ before), b, links. by rewrite <- app_assoc.
  - inversion Hrun; subst. apply Z.eqb_neq in Hret.
    destruct (ns_round_clear pid _ _ _ _ _ _ Hround Hret)
      as (links & Ht & Hall).
    exists (map (EvReadNs pid) links). split; [done|].
    by exists [], ns, links.
Qed.

(** *** A candidate whose namespace does not change *)

Section Stable.

Variable pid : Z.
Variable s : string.
Hypothesis stable : forall t, w_mnt_ns W t pid = Some s.

Lemma read_namespace_stable target p :
  read_namespace W pid target p = (0, s, emit (EvReadNs pid (Some s)) p).
Proof. unfold read_namespace. by rewrite stable. Qed.

Lemma ns_round_stable_in : forall zs ns p,
  s ∈ zs -> exists p', ns_round W pid zs ns p = (0, s, p').
Proof.
  induction zs as [|z zs IH]; intros ns p Hin; simpl.
  - by apply elem_of_nil in Hin.
  - rewrite read_namespace_stable.
    destruct (streq s z) eqn:Heq; [by eexists|].
    apply streq_false in Heq.
    apply elem_of_cons in Hin as [Hin|Hin]; [done|].
    by apply IH.
Qed.

Lemma ns_round_stable_out : forall zs ns p,
  s ∉ zs ->
  exists ns',
    ns_round W pid zs ns p
    = (1, ns', set_trace (trace p ++ map (fun _ => EvReadNs pid (Some s)) zs) p).
Proof.
  induction zs as [|z zs IH]; intros ns p Hout; simpl.
  - exists ns. rewrite app_nil_r. by destruct p.
  - apply not_elem_of_cons in Hout as [Hne Hout].
    rewrite read_namespace_stable.
    apply streq_false in Hne. rewrite Hne.
    destruct (IH s (emit (EvReadNs pid (Some s)) p) Hout) as (ns' & ->).
    exists ns'. simpl. by rewrite <- app_assoc.
Qed.

Lemma ns_poll_stable_in zs : s ∈ zs -> forall fuel ns p,
  exists p', ns_poll W fuel pid zs ns p = PollSpin p'.
Proof.
  intros Hin. induction fuel as [|fuel IH]; intros ns p; simpl.
  - by eexists.
  - destruct (ns_round_stable_in zs ns p Hin) as (p1 & ->). simpl.
    apply IH.
Qed.

Lemma ns_poll_stable_out zs fuel ns p :
  s ∉ zs ->
  exists ns',
    ns_poll W (S fuel) pid zs ns p
    = PollDone ns' (set_trace
                      (trace p ++ map (fun _ => EvReadNs pid (Some s)) zs) p).
Proof.
  intros Hout. simpl.
  destruct (ns_round_stable_out zs ns p Hout) as (ns' & ->). simpl.
  by exists ns'.
Qed.

(** Inside a spawner's namespace: the scan never gets past its poll. *)
Lemma scan_spins name fuel : forall lines ns p,
  s ∈ spawners p -> name ∈ lines ->
  exists evs p',
    scan_hide_list W hdr fuel pid name ns lines p = Spin p'
    /\ grows p evs p' /\ Forall (poll_event pid) evs.
Proof.
  induction lines as [|line rest IH]; intros ns p Hs Hin; simpl.
  - by apply elem_of_nil in Hin.
  - destruct (streq name line) eqn:Heq.
    + destruct (ns_poll_grows W pid (spawners p) fuel ns p)
        as (evs & Hg & Hall).
      destruct (ns_poll_stable_in (spawners p) Hs fuel ns p) as (p' & Hp).
      rewrite Hp in Hg |- *. by exists evs, p'.
    + apply streq_false in Heq.
      apply elem_of_cons in Hin as [Hin|Hin]; [done|].
      by apply IH.
Qed.

(** Outside every spawner's namespace: each poll is over after one
    round, so the scan comes to an end. *)
Lemma scan_ends name fuel : forall lines ns p,
  s ∉ spawners p ->
  exists evs p',
    scan_hide_list W hdr (S fuel) pid name ns lines p = Done p'
    /\ trace p' = trace p ++ evs.
Proof.
  induction lines as [|line rest IH]; intros ns p Hs.
  - exists [], p. by rewrite app_nil_r.
  - cbn [scan_hide_list].
    destruct (streq name line); [|by apply IH].
    destruct (ns_poll_stable_out (spawners p) fuel ns p Hs) as (ns' & ->).
    cbv zeta.
    set (p1 := set_trace _ p).
    destruct (w_kill W (now p1) pid SIGSTOP); simpl negb; cbv iota.
    + eexists _, _. split; [reflexivity|].
      rewrite dispatch_trace, trace_emit. subst p1. simpl.
      rewrite <- !app_assoc. reflexivity.
    + destruct (IH ns' (emit (EvKill pid SIGSTOP false) p1))
        as (evs & p' & Hrun & Ht); [done|].
      exists (map (fun _ => EvReadNs pid (Some s)) (spawners p)
                ++ [EvKill pid SIGSTOP false] ++ evs), p'.
      split; [exact Hrun|].
      rewrite Ht, trace_emit. subst p1. simpl.
      by rewrite <- !app_assoc.
Qed.

Lemma scan_freezes name fuel : forall lines ns p,
  s ∉ spawners p -> name ∈ lines ->
  exists ok rest p',
    scan_hide_list W hdr (S fuel) pid name ns lines p = Done p'
    /\ trace p' = trace p ++ map (fun _ => EvReadNs pid (Some s)) (spawners p)
                          ++ EvKill pid SIGSTOP ok :: rest.
Proof.
  induction lines as [|line rest IH]; intros ns p Hs Hin.
  - by apply elem_of_nil in Hin.
  - cbn [scan_hide_list].
    destruct (streq name line) eqn:Heq.
    + destruct (ns_poll_stable_out (spawners p) fuel ns p Hs) as (ns' & ->).
      cbv zeta.
      set (p1 := set_trace _ p).
      destruct (w_kill W (now p1) pid SIGSTOP); simpl negb; cbv iota.
      * eexists true, _, _. split; [reflexivity|].
        rewrite dispatch_trace, trace_emit. subst p1. simpl.
        rewrite <- !app_assoc. reflexivity.
      * destruct (scan_ends name fuel rest ns'
                            (emit (EvKill pid SIGSTOP false) p1))
          as (evs & p' & Hrun & Ht); [done|].
        exists false, evs, p'. split; [exact Hrun|].
        rewrite Ht, trace_emit. subst p1. simpl.
        by rewrite <- !app_assoc.
    + apply streq_false in Heq.
      apply elem_of_cons in Hin as [Hin|Hin]; [done|].
      by apply IH.
Qed.

End Stable.

(** *** Every suspend signal follows a clear round *)

Lemma split_at_first {A} (P : A -> bool) (l1 : list A) x r : forall b y a,
  Forall (fun e => P e = false) l1 -> P y = true ->
  l1 ++ x :: r = b ++ y :: a ->
  b = l1 \/ exists b', b = l1 ++ x :: b' /\ r = b' ++ y :: a.
Proof.
  induction l1 as [|e l1 IH]; intros b y a Hall Hy Heq.
  - destruct b as [|e b]; [by left|]. right. exists b.
    simpl in Heq. by inversion Heq; subst.
  - apply Forall_cons in Hall as [He Hall].
    destruct b as [|e' b]; simpl in Heq.
    + inversion Heq; subst. congruence.
    + inversion Heq; subst.
      destruct (IH b y a Hall Hy ltac:(done)) as [->|(b' & -> & ->)];
        [by left|].
      right. by exists b'.
Qed.

Lemma clear_round_after pid zs evs before :
  clear_round pid zs evs -> clear_round pid zs (before ++ evs).
Proof.
  intros (b & ns & links & -> & Hall).
  exists (before ++ b), ns, links. by rewrite <- app_assoc.
Qed.

Lemma guarded_after pid zs e evs :
  is_freeze pid e = false -> guarded pid zs evs -> guarded pid zs (e :: evs).
Proof.
  intros He Hg. destruct Hg as [evs Hall|polls ok rest Hall Hclear Hrest].
  - apply guarded_quiet. by constructor.
  - apply (guarded_freeze pid zs (e :: polls) ok rest);
      [by constructor | | done].
    by apply (clear_round_after pid zs polls [e]).
Qed.

Lemma guarded_before pid zs evs tl :
  guarded pid zs evs -> Forall (fun e => is_freeze pid e = false) tl ->
  guarded pid zs (evs ++ tl).
Proof.
  intros Hg Htl. induction Hg as [evs Hall|polls ok rest Hall Hclear Hrest IH].
  - apply guarded_quiet. apply Forall_app. by split.
  - rewrite <- app_assoc. simpl. by apply guarded_freeze.
Qed.

(** In guarded events, what comes before a suspend signal ends with a
    clear round. *)
Lemma guarded_split pid zs evs :
  guarded pid zs evs ->
  forall before ok after,
    evs = before ++ EvKill pid SIGSTOP ok :: after ->
    clear_round pid zs before.
Proof.
  assert (Hk : forall ok, is_freeze pid (EvKill pid SIGSTOP ok) = true).
  { intros ok. simpl. apply Z.eqb_refl. }
  induction 1 as [evs Hall|polls ok0 rest Hall Hclear Hrest IH];
    intros before ok after Heq.
  - subst evs. apply Forall_app in Hall as [_ Hall].
    apply Forall_cons in Hall as [Hno _]. rewrite Hk in Hno. done.
  - destruct (split_at_first (is_freeze pid) polls _ rest before
                (EvKill pid SIGSTOP ok) after Hall (Hk ok) Heq)
      as [->|(b' & -> & Hrest')]; [done|].
    pose proof (IH b' ok after Hrest') as Hc.
    apply (clear_round_after pid zs b' (polls ++ [EvKill pid SIGSTOP ok0]))
      in Hc.
    by rewrite <- app_assoc in Hc.
Qed.

Lemma poll_events_quiet pid evs :
  Forall (poll_event pid) evs ->
  Forall (fun e => is_freeze pid e = false) evs.
Proof.
  intros H. eapply Forall_impl; [exact H|]. by intros [].
Qed.

(** The scan of the hide list sends its suspend signals after clear
    rounds only, in every world. *)
Lemma scan_hide_list_guarded fuel pid name : forall lines ns p,
  exists evs,
    trace (outcome_proc (scan_hide_list W hdr fuel pid name ns lines p))
    = trace p ++ evs
    /\ guarded pid (spawners p) evs.
Proof.
  induction lines as [|line rest IH]; intros ns p; simpl.
  - exists []. rewrite app_nil_r. split; [done|].
    apply guarded_quiet. constructor.
  - destruct (streq name line); [|apply IH].
    destruct (ns_poll_grows W pid (spawners p) fuel ns p)
      as (polls & Hg & Hall).
    apply poll_events_quiet in Hall.
    destruct (ns_poll W fuel pid (spawners p) ns p) as [ns1 p1|p1] eqn:Hpoll;
      simpl in Hg.
    + destruct (ns_poll_clear pid _ _ _ _ _ _ Hpoll) as (evs' & Ht & Hclear).
      rewrite (grows_trace _ _ _ Hg) in Ht.
      apply app_inv_head in Ht. subst evs'.
      cbv zeta.
      destruct (w_kill W (now p1) pid SIGSTOP) eqn:Hk; simpl negb; cbv iota.
      * exists (polls ++ EvKill pid SIGSTOP true
                  :: hide_events hdr ++ [EvFork pid (w_getpid W)]).
        split.
        -- simpl outcome_proc.
           rewrite dispatch_trace, trace_emit, (grows_trace _ _ _ Hg).
           rewrite <- !app_assoc. reflexivity.
        -- apply guarded_freeze; [done..|].
           apply guarded_quiet. unfold hide_events.
           by repeat constructor.
      * destruct (IH ns1 (emit (EvKill pid SIGSTOP false) p1))
          as (evs & Ht & Hrest).
        change (spawners (emit (EvKill pid SIGSTOP false) p1))
          with (spawners p1) in Hrest.
        rewrite (grows_spawners _ _ _ Hg) in Hrest.
        exists (polls ++ EvKill pid SIGSTOP false :: evs). split.
        -- rewrite Ht, trace_emit, (grows_trace _ _ _ Hg).
           rewrite <- !app_assoc. reflexivity.
        -- by apply guarded_freeze.
    + exists polls. split; [exact (grows_trace _ _ _ Hg)|].
      by apply guarded_quiet.
Qed.

Lemma handle_log_guarded fuel hide_list log pid name p :
  parse_line log = Parsed pid name ->
  exists evs,
    trace (outcome_proc (handle_log W hdr fuel hide_list (Some log) p))
    = trace p ++ evs
    /\ guarded pid (spawners p) evs.
Proof.
  intros Hparse. unfold handle_log. rewrite Hparse.
  destruct (scan_hide_list_guarded fuel pid name hide_list
              (w_garbage W (now p)) (emit EvLock p)) as (evs & Ht & Hg).
  change (spawners (emit EvLock p)) with (spawners p) in Hg.
  rewrite trace_emit in Ht.
  destruct (scan_hide_list W hdr fuel pid name (w_garbage W (now p))
              hide_list (emit EvLock p)) as [p2|p2|p2]; simpl in Ht |- *.
  - exists (EvLock :: evs ++ [EvUnlock]). split.
    + rewrite Ht, <- !app_assoc. reflexivity.
    + apply guarded_after; [done|].
      apply guarded_before; [done | by repeat constructor].
  - exists (EvLock :: evs). split; [by rewrite Ht, <- app_assoc|].
    by apply guarded_after.
  - exists (EvLock :: evs). split; [by rewrite Ht, <- app_assoc|].
    by apply guarded_after.
Qed.

(** C1 (amended): in every world, whatever a turn of the loop issued
    before a suspend signal to the candidate of its notification ends
    with a round of reads of the candidate's namespace, one per
    spawner, none of which found the spawner's fingerprint.  And for a
    candidate whose namespace fingerprint is [s] at every read, the
    monitor polls for as long as [s] is one of the spawner fingerprints
    and never sends SIGSTOP then; when [s] is none of them it sends
    SIGSTOP after one read per spawner. *)
Theorem freeze_once_outside_spawner_namespaces
        fuel hide_list log pid name p :
  parse_line log = Parsed pid name ->
  name ∈ hide_list ->
  (forall before ok after,
      issued p (outcome_proc (handle_log W hdr fuel hide_list (Some log) p))
      = before ++ EvKill pid SIGSTOP ok :: after ->
      clear_round pid (spawners p) before)
  /\ (forall s,
         (forall t, w_mnt_ns W t pid = Some s) ->
         (s ∈ spawners p ->
          exists evs p',
            handle_log W hdr fuel hide_list (Some log) p = Spin p'
            /\ trace p' = trace p ++ evs
            /\ Forall (fun e => is_freeze pid e = false) evs)
         /\ (s ∉ spawners p ->
             exists ok rest p',
               handle_log W hdr (S fuel) hide_list (Some log) p = Done p'
               /\ trace p' = trace p ++ [EvLock]
                     ++ map (fun _ => EvReadNs pid (Some s)) (spawners p)
                     ++ EvKill pid SIGSTOP ok :: rest)).
Proof.
  intros Hparse Hin. split.
  { intros before ok after Hsplit.
    destruct (handle_log_guarded fuel hide_list log pid name p Hparse)
      as (evs & Ht & Hg).
    unfold issued in Hsplit. rewrite Ht, drop_app_length in Hsplit.
    by apply (guarded_split pid (spawners p) evs Hg before ok after). }
  intros s Hstable.
  unfold handle_log. rewrite Hparse.
  split; intros Hs.
  - destruct (scan_spins pid s Hstable name fuel hide_list
                         (w_garbage W (now p)) (emit EvLock p))
      as (evs & p' & -> & Hg & Hall); [done..|].
    exists ([EvLock] ++ evs), p'. split; [done|]. split.
    + rewrite (grows_trace _ _ _ Hg), trace_emit. by rewrite <- app_assoc.
    + constructor; [done|].
      eapply Forall_impl; [exact Hall|]. by intros [].
  - destruct (scan_freezes pid s Hstable name fuel hide_list
                           (w_garbage W (now p)) (emit EvLock p))
      as (ok & rest & p' & -> & Ht); [done..|].
    exists ok, (rest ++ [EvUnlock]), (emit EvUnlock p').
    split; [done|].
    rewrite trace_emit, Ht, trace_emit.
    change (spawners (emit EvLock p)) with (spawners p).
    rewrite <- !app_assoc. simpl. by rewrite <- ?app_assoc.
Qed.

End CandidateFacts.

(** ** Looking for the spawners *)

Section ZygoteFacts.

Variable W : world.

Lemma read_namespace_fails pid target p :
  w_mnt_ns W (now p) pid = None ->
  read_namespace W pid target p = (1, target, emit (EvReadNs pid None) p).
Proof. unfold read_namespace. by intros ->. Qed.

Lemma store_slot_same (l : list string) n :
  <[n := default "" (l !! n)]> l = l.
Proof.
  destruct (l !! n) as [x|] eqn:Hl; simpl.
  - by apply list_insert_id.
  - apply list_insert_ge. by apply lookup_ge_None.
Qed.

(** One failed read: the slot is as it was. *)
Lemma store_zygote_poll_failed fuel pid p :
  w_mnt_ns W (S (now p)) pid = None ->
  store_zygote_poll W (S fuel) pid p
  = let p' := emit (EvReadNs pid None) (emit (EvUsleep 500) p) in
    if streq (zygote_slot p) (init_ns p)
    then store_zygote_poll W fuel pid p' else Done p'.
Proof.
  intros Hnone. cbn [store_zygote_poll].
  rewrite read_namespace_fails by (by rewrite now_emit).
  cbv zeta.
  change (zygote_slot (emit (EvUsleep 500) p)) with (zygote_slot p).
  set (p2 := emit (EvReadNs pid None) (emit (EvUsleep 500) p)).
  assert (Hsame : set_zygote_ns
                    (<[zygote_num p2 := zygote_slot p]> (zygote_ns p2)) p2
                  = p2).
  { unfold zygote_slot. subst p2. simpl. rewrite store_slot_same.
    by destruct p. }
  by rewrite Hsame.
Qed.

Lemma store_zygote_poll_stuck pid : forall fuel p,
  (forall t, (now p < t)%nat -> w_mnt_ns W t pid = None) ->
  zygote_slot p = init_ns p ->
  exists p', store_zygote_poll W fuel pid p = Spin p'.
Proof.
  induction fuel as [|fuel IH]; intros p Hnone Hslot; [by eexists|].
  rewrite store_zygote_poll_failed by (apply Hnone; lia).
  cbv zeta. rewrite Hslot. unfold streq. rewrite String.eqb_refl.
  apply IH; [|done].
  intros t Ht. apply Hnone. rewrite !now_emit in Ht. lia.
Qed.

(** C10 (amended): a failed read leaves the buffer as it was.  So when
    the namespace of a spawner candidate cannot be read, the poll of
    store_zygote_ns ends at once if the slot holds anything but init's
    fingerprint, as the empty string it starts with, and that value
    becomes a spawner fingerprint; if the slot holds init's fingerprint
    the poll does not end. *)
Theorem unreadable_spawner_recorded fuel pid p :
  (forall t, w_mnt_ns W t pid = None) ->
  (zygote_num p < 2)%nat ->
  List.length (zygote_ns p) = 2%nat ->
  (forall target q,
      read_namespace W pid target q = (1, target, emit (EvReadNs pid None) q))
  /\ (zygote_slot p <> init_ns p ->
      exists p',
        store_zygote_ns W (S fuel) pid p = Done p'
        /\ trace p' = trace p ++ [EvUsleep 500; EvReadNs pid None]
        /\ spawners p' = spawners p ++ [zygote_slot p])
  /\ (zygote_slot p = init_ns p ->
      exists p', store_zygote_ns W fuel pid p = Spin p').
Proof.
  intros Hnone Hnum Hlen.
  split; [intros; by apply read_namespace_fails|].
  assert (Hne : (zygote_num p =? 2)%nat = false) by (apply Nat.eqb_neq; lia).
  unfold store_zygote_ns. rewrite Hne. split; intros Hslot.
  - rewrite store_zygote_poll_failed by apply Hnone. cbv zeta.
    apply streq_false in Hslot. rewrite Hslot.
    eexists. split; [reflexivity|]. split.
    + simpl. by rewrite <- app_assoc.
    + unfold spawners, zygote_slot. simpl.
      destruct (lookup_lt_is_Some_2 (zygote_ns p) (zygote_num p))
        as [x Hx]; [lia|].
      rewrite Hx. simpl. by apply take_S_r.
  - destruct (store_zygote_poll_stuck pid fuel p) as (p' & ->);
      [intros; apply Hnone | done | by eexists].
Qed.

End ZygoteFacts.

Lemma unreadable_spawner_recorded_witness :
  let W0 := calm_world None [] in
  let p := booting "mnt:[4026531840]" in
  (forall t, w_mnt_ns W0 t 321 = None)
  /\ (forall target q,
         read_namespace W0 321 target q
         = (1, target, emit (EvReadNs 321 None) q))
  /\ (zygote_slot p <> init_ns p ->
      exists p',
        store_zygote_ns W0 1 321 p = Done p'
        /\ trace p' = trace p ++ [EvUsleep 500; EvReadNs 321 None]
        /\ spawners p' = spawners p ++ [zygote_slot p])
  /\ (zygote_slot p = init_ns p ->
      exists p', store_zygote_ns W0 0 321 p = Spin p').
Proof.
  intros W0 p. split; [reflexivity|].
  apply (unreadable_spawner_recorded W0 0 321 p).
  - reflexivity.
  - vm_compute. lia.
  - reflexivity.
Defined.

(** The empty string ends up in the spawner set. *)
Example empty_fingerprint_recorded :
  exists p',
    store_zygote_ns (calm_world None []) 1 321 (booting "mnt:[4026531840]")
    = Done p'
    /\ spawners p' = [""].
Proof. eexists. split; reflexivity. Qed.

(** C10 as stated fails: a spawner that is still in init's namespace at
    the first read and cannot be read afterwards keeps store_zygote_ns
    in its loop for good. *)
Lemma unreadable_spawner_keeps_polling :
  let init := "mnt:[4026531840]" in
  w_mnt_ns (dying_world init) 1 321 = Some init
  /\ (forall t, (2 <= t)%nat -> w_mnt_ns (dying_world init) t 321 = None)
  /\ ~ (exists fuel p',
           store_zygote_ns (dying_world init) fuel 321 (booting init)
           = Done p').
Proof.
  intros init. split; [reflexivity|]. split.
  - intros t Ht. simpl. destruct (t <? 2)%nat eqn:Hlt; [|done].
    apply Nat.ltb_lt in Hlt. lia.
  - intros (fuel & p' & Hrun).
    unfold store_zygote_ns in Hrun. simpl (_ =? _)%nat in Hrun. cbv iota in Hrun.
    destruct fuel as [|fuel]; [done|].
    set (p3 := {| init_ns := init; zygote_ns := [init; ""];
                  zygote_num := 0%nat; hide_queue := 0; cache_block := "";
                  has_cache := 1;
                  trace := [EvUsleep 500; EvReadNs 321 (Some init)] |}).
    assert (Hstep : store_zygote_poll (dying_world init) (S fuel) 321
                                      (booting init)
                    = store_zygote_poll (dying_world init) fuel 321 p3)
      by reflexivity.
    rewrite Hstep in Hrun.
    destruct (store_zygote_poll_stuck (dying_world init) 321 fuel p3)
      as (p4 & Hspin); [| reflexivity | by rewrite Hspin in Hrun].
    intros t Ht. change (now p3) with 2%nat in Ht. simpl.
    destruct (t <? 2)%nat eqn:Hlt; [|done].
    apply Nat.ltb_lt in Hlt. lia.
Qed.

(** ** The markers *)

Lemma issued_grows p evs p' : trace p' = trace p ++ evs -> issued p p' = evs.
Proof. unfold issued. intros ->. apply drop_app_length. Qed.

Lemma hide_markers_issued hdr p :
  issued p (hide_markers hdr p) = hide_events hdr.
Proof.
  apply issued_grows. unfold hide_markers, hide_events. simpl.
  by rewrite <- !app_assoc.
Qed.

Lemma restore_markers_issued hdr p :
  issued p (restore_markers hdr p) = restore_events hdr.
Proof.
  apply issued_grows. unfold restore_markers, restore_events. simpl.
  by rewrite <- !app_assoc.
Qed.

(** C5 (amended): the restore step links "/data/magisk",
    "/data/magisk.img" and "/magisk" again; the hide step unlinks these
    three names and MAGISKRC.  So after hiding and restoring the three
    names exist, and MAGISKRC, unless it is one of them, does not. *)
Theorem restore_links_all_but_magiskrc hdr p q fs :
  let hide := issued p (hide_markers hdr p) in
  let restore := issued q (restore_markers hdr q) in
  let fs' := replay restore (replay hide fs) in
  symlinked restore = restored_names
  /\ unlinked hide = restored_names ∪ {[MAGISKRC hdr]}
  /\ restored_names ⊆ entries fs'
  /\ (MAGISKRC hdr ∉ restored_names -> MAGISKRC hdr ∉ entries fs')
  /\ writable fs' = false.
Proof.
  cbv zeta. rewrite hide_markers_issued, restore_markers_issued.
  unfold restored_names, hide_events, restore_events, replay. simpl.
  repeat split; set_solver.
Qed.

(** C5 as stated fails: with "/init.magisk.rc" for MAGISKRC the hide
    step deletes a name that the restore step does not bring back. *)
Lemma magiskrc_not_restored :
  let hide := issued fresh (hide_markers sample_header fresh) in
  let restore := issued fresh (restore_markers sample_header fresh) in
  let fs := {| entries := unlinked hide; writable := false |} in
  unlinked hide <> symlinked restore
  /\ "/init.magisk.rc" ∈ entries fs
  /\ "/init.magisk.rc" ∉ entries (replay restore (replay hide fs)).
Proof.
  cbv zeta. rewrite hide_markers_issued, restore_markers_issued.
  unfold hide_events, restore_events, replay. simpl.
  split; [|split].
  - intros Heq.
    assert (Hin : "/init.magisk.rc" ∈ ({["/data/magisk"]}
                    ∪ ({["/data/magisk.img"]} ∪ ({["/magisk"]} ∪ ∅))
                    : gset string)).
    { rewrite <- Heq. set_solver. }
    set_solver.
  - set_solver.
  - set_solver.
Qed.

(** ** The worker *)

Section WorkerFacts.

Variable W : world.












End WorkerFacts.

(** ** Closed instances *)


Lemma freeze_once_outside_spawner_namespaces_witness :
  let p := started sample_init sample_zygote in
  let hide_list := ["com.example.app"] in
  let inside := calm_world (Some sample_zygote) [] in
  parse_line sample_log = Parsed 5555 "com.example.app"
  /\ "com.example.app" ∈ hide_list
  /\ issued p (outcome_proc
                 (handle_log sample_world sample_header 1 hide_list
                             (Some sample_log) p))
     = [EvLock; EvReadNs 5555 (Some sample_app)]
         ++ EvKill 5555 SIGSTOP true
         :: hide_events sample_header ++ [EvFork 5555 77; EvUnlock]
  /\ clear_round 5555 (spawners p) [EvLock; EvReadNs 5555 (Some sample_app)]
  /\ (exists ok rest p',
         handle_log sample_world sample_header 2 hide_list
                    (Some sample_log) p = Done p'
         /\ trace p' = trace p ++ [EvLock]
                             ++ map (fun _ => EvReadNs 5555 (Some sample_app))
                                    (spawners p)
                             ++ EvKill 5555 SIGSTOP ok :: rest)
  /\ (exists evs p',
         handle_log inside sample_header 2 hide_list (Some sample_log) p
         = Spin p'
         /\ trace p' = trace p ++ evs
         /\ Forall (fun e => is_freeze 5555 e = false) evs).
Proof.
  intros p hide_list inside.
  assert (Hparse : parse_line sample_log = Parsed 5555 "com.example.app")
    by (vm_compute; reflexivity).
  assert (Hin : "com.example.app" ∈ hide_list)
    by (apply list_elem_of_singleton; reflexivity).
  assert (Hrun : issued p (outcome_proc
                             (handle_log sample_world sample_header 1
                                         hide_list (Some sample_log) p))
                 = [EvLock; EvReadNs 5555 (Some sample_app)]
                     ++ EvKill 5555 SIGSTOP true
                     :: hide_events sample_header
                     ++ [EvFork 5555 77; EvUnlock])
    by (vm_compute; reflexivity).
  destruct (freeze_once_outside_spawner_namespaces
              sample_world sample_header 1 hide_list sample_log
              5555 "com.example.app" p Hparse Hin) as [Hguard Hfixed].
  destruct (freeze_once_outside_spawner_namespaces
              inside sample_header 2 hide_list sample_log
              5555 "com.example.app" p Hparse Hin) as [_ Hfixed'].
  split; [exact Hparse|]. split; [exact Hin|]. split; [exact Hrun|].
  split; [exact (Hguard _ _ _ Hrun)|]. split.
  - apply (Hfixed sample_app); [by intros t|].
    intros Hs. apply list_elem_of_singleton in Hs. discriminate Hs.
  - apply (Hfixed' sample_zygote); [by intros t|].
    apply list_elem_of_here.
Defined.

(** The two turns of that instance: outside the spawner's namespace the
    candidate is frozen after one read, inside it the monitor reads and
    sleeps until the fuel is gone. *)
Example candidate_outside_spawner_namespace_frozen :
  trace dispatched
  = [EvLock; EvReadNs 5555 (Some sample_app); EvKill 5555 SIGSTOP true;
     EvRemount false; EvUnlink "/magisk"; EvUnlink "/data/magisk";
     EvUnlink "/data/magisk.img"; EvUnlink "/init.magisk.rc";
     EvRemount true; EvFork 5555 77; EvUnlock].
Proof. vm_compute. reflexivity. Qed.

Example candidate_in_spawner_namespace_polls :
  handle_log (calm_world (Some sample_zygote) []) sample_header 2
             ["com.example.app"] (Some sample_log)
             (started sample_init sample_zygote)
  = Spin (set_trace [EvLock;
                     EvReadNs 5555 (Some sample_zygote); EvUsleep 50;
                     EvReadNs 5555 (Some sample_zygote); EvUsleep 50]
                    (started sample_init sample_zygote)).
Proof. vm_compute. reflexivity. Qed.

(** C1 as stated fails: a candidate that is never in a spawner's
    namespace is sent SIGSTOP at once. *)
Lemma freeze_without_spawner_fingerprint :
  let p := started sample_init sample_zygote in
  (forall t, w_mnt_ns sample_world t 5555 = Some sample_app)
  /\ (sample_app ∉ spawners p)
  /\ (exists p',
         handle_log sample_world sample_header 1 ["com.example.app"]
                    (Some sample_log) p = Done p'
         /\ EvKill 5555 SIGSTOP true ∈ trace p').
Proof.
  intros p. split; [by intros t|]. split.
  - intros Hin. apply list_elem_of_singleton in Hin. discriminate Hin.
  - eexists. split; [vm_compute; reflexivity|].
    do 2 apply list_elem_of_further. apply list_elem_of_here.
Qed.

Lemma lost_race_abandons_candidate_witness :
  let W0 := dying_world sample_init in
  let p := started sample_init sample_zygote in
  let hide_list := ["com.example.app"] in
  (forall t, w_kill W0 t 5555 SIGSTOP = false)
  /\ (exists evs,
         grows p evs (outcome_proc
                        (handle_log W0 sample_header 1 hide_list
                                    (Some sample_log) p))
         /\ Forall (fun e => is_dispatch e = false) evs)
  /\ (NoDup hide_list ->
      "com.example.app" ∈ hide_list ->
      forall ns1 p1,
        ns_poll W0 1 5555 (spawners p) (w_garbage W0 (now p)) (emit EvLock p)
        = PollDone ns1 p1 ->
        exists polls p',
          handle_log W0 sample_header 1 hide_list (Some sample_log) p
          = Done p'
          /\ grows p ([EvLock] ++ polls
                              ++ [EvKill 5555 SIGSTOP false; EvUnlock]) p'
          /\ Forall (poll_event 5555) polls).
Proof.
  intros W0 p hide_list. split; [by intros t|].
  apply (lost_race_abandons_candidate
           W0 sample_header 1 hide_list sample_log
           5555 "com.example.app" p).
  - vm_compute. reflexivity.
  - intros t. reflexivity.
Defined.

(** The turn of that run. *)
Example lost_race_trace :
  handle_log (dying_world sample_init) sample_header 1 ["com.example.app"]
             (Some sample_log) (started sample_init sample_zygote)
  = Done (set_trace [EvLock; EvReadNs 5555 (Some sample_init);
                     EvKill 5555 SIGSTOP false; EvUnlock]
                    (started sample_init sample_zygote)).
Proof. vm_compute. reflexivity. Qed.

Example worker_sample_trace :
  trace (outcome_proc
           (worker (calm_world (Some sample_app) sample_mounts) 5555 77
                   (started sample_init sample_zygote)))
  = [EvManageSelinux; EvCleanProps; EvSetns 5555 true;
     EvReadFile "/proc/5555/mounts";
     EvUmount "/system/etc/hosts" true;
     EvUmount "/system/app" true; EvUmount "/sbin" true;
     EvReadFile "/proc/5555/mounts";
     EvUmount "/magisk" true;
     EvKill 5555 SIGCONT true; EvVecDestroy true; EvSleep 10;
     EvKill 77 HIDE_DONE true; EvExit 0].
Proof. vm_compute. reflexivity. Qed.

(** When the namespace cannot be joined the target is resumed at once. *)
Example worker_lost_target_trace :
  trace (outcome_proc
           (worker (dying_world sample_init) 5555 77
                   (started sample_init sample_zygote)))
  = [EvManageSelinux; EvCleanProps; EvSetns 5555 false;
     EvKill 5555 SIGCONT false; EvVecDestroy false].
Proof. vm_compute. reflexivity. Qed.


(** In that instance the first pass is over the lines of the device
    mounted on /cache; a worker whose [has_cache] is 0 has no first
    pass. *)
Example sample_cache_device :
  cache_device sample_mounts (started sample_init sample_zygote)
  = Some "/dev/block/mmcblk0p27"
  /\ filter (fun line => is_cache_mount "/dev/block/mmcblk0p27" line = true)
            sample_mounts
     = ["/dev/block/mmcblk0p27 /system/etc/hosts ext4 rw 0 0"]
  /\ cache_device sample_mounts
                  (set_has_cache 0 (started sample_init sample_zygote))
     = None.
Proof. repeat split. Qed.

(** The sample run goes on: the worker reports and the markers come
    back. *)
Example report_restores_markers :
  hide_queue dispatched = 1
  /\ hide_queue (hide_done sample_header dispatched) = 0
  /\ issued dispatched (hide_done sample_header dispatched)
     = EvDelivered HIDE_DONE :: restore_events sample_header.
Proof. repeat split. Qed.

(** * Further properties *)

(** ** The parser, further *)

Lemma strchr_after_prefix pre r :
  all_chars (fun c => negb (Ascii.eqb c "[")) pre = true ->
  strchr (pre +:+ String "[" r) "[" = Some (String "[" r).
Proof.
  induction pre as [|c pre IH]; simpl; intros H; [done|].
  apply andb_true_iff in H as [Hc Hpre].
  apply negb_true_iff in Hc. rewrite Hc. by apply IH.
Qed.

(** X1: what stands before the first opening bracket of a line has no
    part in the result, commas included. *)
Theorem text_before_bracket_ignored pre r :
  all_chars (fun c => negb (Ascii.eqb c "[")) pre = true ->
  parse_line (pre +:+ String "[" r) = parse_line (String "[" r).
Proof.
  intros Hpre. unfold parse_line.
  rewrite strchr_after_prefix by done. reflexivity.
Qed.

Lemma text_before_bracket_ignored_witness :
  all_chars (fun c => negb (Ascii.eqb c "[")) "I/am_proc_start( 1,2): " = true
  /\ parse_line ("I/am_proc_start( 1,2): "
                   +:+ String "[" "0,5555,10089,com.example.app,activity,.Main]")
     = parse_line (String "[" "0,5555,10089,com.example.app,activity,.Main]").
Proof.
  split; [reflexivity|].
  apply (text_before_bracket_ignored
           "I/am_proc_start( 1,2): "
           "0,5555,10089,com.example.app,activity,.Main]").
  reflexivity.
Defined.

Lemma wrap_int_range z : - 2 ^ 31 <= wrap_int z < 2 ^ 31.
Proof.
  unfold wrap_int.
  pose proof (Z.mod_pos_bound (z + 2 ^ 31) (2 ^ 32) ltac:(lia)). lia.
Qed.

Lemma skip_space_head s c r :
  skip_space s = String c r -> isspace c = false.
Proof.
  induction s as [|a s IH]; simpl; [done|].
  destruct (isspace a) eqn:Ha; [exact IH|].
  intros H. by inversion H; subst.
Qed.

Lemma scan_token_bound w : forall s,
  (String.length (scan_token w s).1 <= w)%nat
  /\ all_chars (fun c => negb (isspace c)) (scan_token w s).1 = true.
Proof.
  induction w as [|w IH]; intros s; [by destruct s|].
  destruct s as [|c s]; simpl; [split; [lia | done]|].
  destruct (isspace c) eqn:Hc; simpl; [split; [lia | done]|].
  destruct (IH s) as [Hlen Hall].
  destruct (scan_token w s) as [t rest]. simpl in *.
  rewrite Hc. split; [lia | done].
Qed.

Lemma scan_token_first w c r :
  isspace c = false ->
  (1 <= String.length (scan_token (S w) (String c r)).1)%nat.
Proof.
  intros Hc. simpl. rewrite Hc.
  destruct (scan_token w r). simpl. lia.
Qed.

Lemma scan_str_bound n s t rest :
  scan_str (Some (S n)) s = Conv t rest ->
  (1 <= String.length t <= S n)%nat
  /\ all_chars (fun c => negb (isspace c)) t = true.
Proof.
  unfold scan_str.
  destruct (skip_space s) as [|c r] eqn:Hs; [done|].
  apply skip_space_head in Hs.
  pose proof (scan_token_bound (S n) (String c r)) as [Hlen Hall].
  pose proof (scan_token_first n c r Hs) as Hone.
  destruct (scan_token (S n) (String c r)) as [t' rest'].
  intros H. inversion H; subst. simpl in *. split; [lia | done].
Qed.

Lemma scan_int_range s v rest :
  scan_int s = Conv v rest -> - 2 ^ 31 <= v < 2 ^ 31.
Proof.
  unfold scan_int.
  destruct (skip_space s) as [|c r]; [done|].
  destruct (Ascii.eqb c "-").
  { destruct (first_is_digit r); [|done].
    destruct (scan_digits 0 r). intros H. inversion H.
    apply wrap_int_range. }
  destruct (Ascii.eqb c "+").
  { destruct (first_is_digit r); [|done].
    destruct (scan_digits 0 r). intros H. inversion H.
    apply wrap_int_range. }
  destruct (isdigit c); [|done].
  destruct (scan_digits 0 (String c r)). intros H. inversion H.
  apply wrap_int_range.
Qed.

Lemma sscanf_from_stored fmt :
  Forall directive_ok fmt ->
  forall s converted got,
    Forall stored_ok got ->
    Forall stored_ok (sscanf_from fmt s converted got).2.
Proof.
  induction 1 as [|d fmt Hd _ IH]; intros s converted got Hgot;
    [done|].
  assert (Hstop : forall a b, Forall stored_ok (stop a b got).2).
  { intros a b. unfold stop. by destruct (a && negb b). }
  destruct d as [c| |assign|assign width]; cbn [sscanf_from].
  - destruct s as [|a r]; [apply Hstop|].
    destruct (Ascii.eqb a c); [by apply IH | apply Hstop].
  - by apply IH.
  - destruct (scan_int s) as [v rest| |] eqn:Hv; [|apply Hstop..].
    apply IH. destruct assign; [|done].
    apply Forall_app. split; [done|].
    constructor; [|done]. by eapply scan_int_range.
  - destruct (scan_str width s) as [v rest| |] eqn:Hv; [|apply Hstop..].
    apply IH. destruct assign; [|done].
    apply Forall_app. split; [done|].
    constructor; [|done]. simpl in Hd. subst width.
    by eapply scan_str_bound.
Qed.

(** X2: whatever the line, a notification that comes out of the parser
    has a process id that fits an int and a process name of 1 to 256
    characters without white space. *)
Theorem parsed_notification_sound log pid processName :
  parse_line log = Parsed pid processName ->
  sound_notification pid processName.
Proof.
  unfold parse_line.
  destruct (strchr log "[") as [ss|]; [|done].
  destruct (blank_commas ss) as [ss' comma].
  assert (Hfmt : forall fmt,
             fmt = fmt_seven \/ fmt = fmt_six ->
             Forall stored_ok (sscanf ss' fmt).2).
  { intros fmt Hf. unfold sscanf. apply sscanf_from_stored; [|done].
    destruct Hf as [-> | ->]; repeat constructor. }
  assert (Hgot : forall r : Z * list scanval,
             Forall stored_ok r.2 ->
             (let '(ret, got) := r in
              if negb (ret =? 2) then Dropped
              else match got with
                   | [VInt pid; VStr processName] =>
                       if fits 256 processName then Parsed pid processName
                       else Overrun
                   | _ => Dropped
                   end) = Parsed pid processName ->
             sound_notification pid processName).
  { intros [ret got] Hall. simpl in Hall.
    destruct (negb (ret =? 2)); [done|].
    destruct got as [|[z|?] [|[?|name] [|? ?]]]; try done.
    destruct (fits 256 name); [|done].
    intros H. inversion H; subst.
    inversion Hall as [|? ? Hz Hrest]; subst.
    inversion Hrest as [|? ? Hn _]; subst.
    simpl in Hz, Hn. unfold sound_notification. tauto. }
  destruct (comma =? 6); apply Hgot; apply Hfmt; auto.
Qed.

Lemma parsed_notification_sound_witness :
  parse_line sample_log = Parsed 5555 "com.example.app"
  /\ sound_notification 5555 "com.example.app".
Proof.
  split; [vm_compute; reflexivity|].
  apply (parsed_notification_sound sample_log 5555 "com.example.app").
  vm_compute. reflexivity.
Defined.

Lemma saturate_small z : - 2 ^ 63 <= z < 2 ^ 63 -> saturate z = z.
Proof. unfold saturate. lia. Qed.

Lemma first_chars_all n : forall s,
  (String.length s <= n)%nat -> first_chars n s = s.
Proof.
  induction n as [|n IH]; intros s Hn.
  - destruct s; simpl in *; [done | lia].
  - destruct s as [|c s]; simpl in *; [done|].
    rewrite IH; [done | lia].
Qed.

(** X3: a record in either layout of the notification source, with
    numbers in the leading fields and a name of fewer than 256
    characters, which [processName] has room for, yields the second
    field as process id and the name field as it is: the fourth field of
    the record with five commas, the fifth of the record with six. *)
Theorem records_parse_by_position a b c d w t u :
  is_number a = true -> is_number b = true -> is_number c = true ->
  is_number d = true ->
  is_word w = true -> no_comma t = true -> no_comma u = true ->
  decimal b < 2 ^ 31 ->
  (String.length w < 256)%nat ->
  parse_line (record6 a b c w t u) = Parsed (decimal b) w
  /\ parse_line (record7 a b c d w t u) = Parsed (decimal b) w.
Proof.
  intros Ha Hb Hc Hd Hw Ht Hu Hpid Hlen.
  assert (Hpos : 0 <= decimal b).
  { pose proof Hb as Hb'. apply andb_true_iff in Hb' as [_ Hb'].
    exact (decimal_from_nonneg b 0 ltac:(lia) Hb'). }
  assert (Hwrap : wrap_int (saturate (decimal b)) = decimal b).
  { rewrite saturate_small by lia. apply wrap_int_small. lia. }
  assert (Hfits : fits 256 w = true).
  { unfold fits. by apply Nat.ltb_lt. }
  rewrite parse_record6, parse_record7 by done.
  rewrite Hwrap, first_chars_all by lia. by rewrite Hfits.
Qed.

Lemma records_parse_by_position_witness :
  parse_line (record6 "0" "5555" "10089" "com.example.app" "activity"
                      ".Main]")
  = Parsed (decimal "5555") "com.example.app"
  /\ parse_line (record7 "0" "5555" "10089" "2" "com.example.app" "activity"
                         ".Main]")
     = Parsed (decimal "5555") "com.example.app".
Proof.
  apply (records_parse_by_position "0" "5555" "10089" "2" "com.example.app"
                                   "activity" ".Main]");
    try (vm_compute; reflexivity).
  vm_compute. lia.
Defined.

(** ** The loop turn, further *)

Section TurnFacts.

Variable W : world.
Variable hdr : header.

(** X4: a notification for a process that is not in the hide list
    costs the lock and nothing else: no namespace is read, no signal
    sent, no marker touched. *)
Theorem unlisted_process_untouched fuel hide_list log pid name p :
  parse_line log = Parsed pid name ->
  name ∉ hide_list ->
  handle_log W hdr fuel hide_list (Some log) p
  = Done (set_trace (trace p ++ [EvLock; EvUnlock]) p).
Proof.
  intros Hparse Hout. unfold handle_log. rewrite Hparse.
  rewrite scan_hide_list_absent by done.
  unfold emit. simpl. by rewrite <- ?app_assoc.
Qed.

Lemma grows_same_statics p evs p' : grows p evs p' -> same_statics p p'.
Proof. intros ->. by repeat split. Qed.

(** X5: a turn either freezes nobody and changes nothing but the
    trace, or it ends, after the first suspend signal that reaches the
    candidate, with the markers hidden, the counter raised by one and
    one fork for that candidate and the monitor's own pid. *)
Theorem freeze_is_followed_by_dispatch fuel hide_list log pid name p :
  parse_line log = Parsed pid name ->
  let o := handle_log W hdr fuel hide_list (Some log) p in
  (exists evs,
      grows p evs (outcome_proc o)
      /\ Forall (fun e => delivered_stop e = false /\ is_dispatch e = false)
                evs)
  \/ (exists evs p',
         o = Done p'
         /\ trace p' = trace p ++ [EvLock] ++ evs
                               ++ [EvKill pid SIGSTOP true]
                               ++ hide_events hdr
                               ++ [EvFork pid (w_getpid W); EvUnlock]
         /\ Forall (scan_event pid) evs
         /\ hide_queue p' = wrap_int (hide_queue p + 1)
         /\ same_statics p p').
Proof.
  intros Hparse. cbv zeta. unfold handle_log. rewrite Hparse.
  pose proof (scan_hide_list_effect W hdr fuel pid name hide_list
                (w_garbage W (now p)) (emit EvLock p)) as He.
  cbv zeta in He.
  assert (Hquiet : forall evs,
             Forall (scan_event pid) evs ->
             Forall (fun e => delivered_stop e = false
                              /\ is_dispatch e = false) evs).
  { intros evs Hall. eapply Forall_impl; [exact Hall|].
    intros e He'. destruct e as [| | | ? [] []| | | | | | | | | | | | | |];
      simpl in *; done. }
  destruct He as [(evs & Hg & Hall)|(evs & p2 & Ho & Hg & Hall & _)].
  - left.
    destruct (scan_hide_list W hdr fuel pid name (w_garbage W (now p))
                hide_list (emit EvLock p)) as [p2|p2|p2]; simpl in Hg |- *.
    + exists ([EvLock] ++ evs ++ [EvUnlock]). split.
      * eapply (grows_trans _ [EvLock]); [apply grows_emit|].
        eapply grows_trans; [exact Hg | apply grows_emit].
      * constructor; [done|]. apply Forall_app. split; [by apply Hquiet|].
        by repeat constructor.
    + exists ([EvLock] ++ evs). split.
      * eapply (grows_trans _ [EvLock]); [apply grows_emit | exact Hg].
      * constructor; [done | by apply Hquiet].
    + exists ([EvLock] ++ evs). split.
      * eapply (grows_trans _ [EvLock]); [apply grows_emit | exact Hg].
      * constructor; [done | by apply Hquiet].
  - right. rewrite Ho.
    exists evs, (emit EvUnlock (dispatch W hdr pid p2)).
    split; [done|]. split; [|split; [done | split]].
    + rewrite trace_emit, dispatch_trace, (grows_trace _ _ _ Hg), trace_emit.
      rewrite <- !app_assoc. simpl. by rewrite <- ?app_assoc.
    + simpl. do 2 f_equal. exact (grows_hide_queue _ _ _ Hg).
    + apply grows_same_statics in Hg. by destruct Hg as (? & ? & ? & ? & ?).
Qed.

End TurnFacts.

(** ** Runs of the loop *)

Section RunFacts.

Variable W : world.
Variable hdr : header.

(** What one turn does to the trace and the counter, however it ends. *)
Lemma turn_effect fuel hide_list log p :
  let p' := outcome_proc (handle_log W hdr fuel hide_list log p) in
  same_statics p p'
  /\ exists evs,
      trace p' = trace p ++ evs
      /\ ((hide_queue p' = hide_queue p /\ pending evs = 0)
          \/ (hide_queue p' = wrap_int (hide_queue p + 1)
              /\ pending evs = 1)).
Proof.
  cbv zeta.
  assert (Hnil : same_statics p p
                 /\ exists evs,
                     trace p = trace p ++ evs
                     /\ ((hide_queue p = hide_queue p /\ pending evs = 0)
                         \/ (hide_queue p = wrap_int (hide_queue p + 1)
                             /\ pending evs = 1))).
  { split; [by repeat split|]. exists []. rewrite app_nil_r.
    split; [done | by left]. }
  unfold handle_log. destruct log as [line|]; [|exact Hnil].
  destruct (parse_line line) as [| | |pid name]; [exact Hnil..|].
  pose proof (scan_hide_list_effect W hdr fuel pid name hide_list
                (w_garbage W (now p)) (emit EvLock p)) as He.
  cbv zeta in He.
  destruct He as [(evs & Hg & Hall)|(evs & p2 & Ho & Hg & Hall & _)].
  - assert (Hg' : grows p ([EvLock] ++ evs)
                        (outcome_proc
                           (scan_hide_list W hdr fuel pid name
                              (w_garbage W (now p)) hide_list
                              (emit EvLock p)))).
    { eapply (grows_trans _ [EvLock]); [apply grows_emit | exact Hg]. }
    assert (Hp : pending ([EvLock] ++ evs) = 0).
    { rewrite pending_app, (pending_scan_events _ _ Hall). reflexivity. }
    destruct (scan_hide_list W hdr fuel pid name (w_garbage W (now p))
                hide_list (emit EvLock p)) as [p2|p2|p2]; simpl in Hg' |- *.
    + assert (Hg2 : grows p (([EvLock] ++ evs) ++ [EvUnlock])
                          (emit EvUnlock p2)).
      { eapply grows_trans; [exact Hg' | apply grows_emit]. }
      split; [by eapply grows_same_statics|].
      eexists. split; [exact (grows_trace _ _ _ Hg2)|]. left.
      split; [exact (grows_hide_queue _ _ _ Hg2)|].
      rewrite pending_app, Hp. reflexivity.
    + split; [by eapply grows_same_statics|].
      eexists. split; [exact (grows_trace _ _ _ Hg')|]. left.
      split; [exact (grows_hide_queue _ _ _ Hg') | exact Hp].
    + split; [by eapply grows_same_statics|].
      eexists. split; [exact (grows_trace _ _ _ Hg')|]. left.
      split; [exact (grows_hide_queue _ _ _ Hg') | exact Hp].
  - rewrite Ho. simpl outcome_proc.
    pose proof (grows_same_statics _ _ _ Hg) as Hs.
    split; [by destruct Hs as (? & ? & ? & ? & ?)|].
    exists ([EvLock] ++ (evs ++ [EvKill pid SIGSTOP true])
              ++ (hide_events hdr ++ [EvFork pid (w_getpid W)])
              ++ [EvUnlock]).
    split.
    + rewrite trace_emit, dispatch_trace, (grows_trace _ _ _ Hg), trace_emit.
      by rewrite <- !app_assoc.
    + right. split.
      * simpl. do 2 f_equal. exact (grows_hide_queue _ _ _ Hg).
      * rewrite !pending_app, (pending_scan_events _ _ Hall). reflexivity.
Qed.

Lemma hide_done_same_statics p : same_statics p (hide_done hdr p).
Proof.
  unfold hide_done. simpl.
  destruct (wrap_int (hide_queue p - 1) =? 0); by repeat split.
Qed.

Lemma same_statics_trans p p' p'' :
  same_statics p p' -> same_statics p' p'' -> same_statics p p''.
Proof.
  intros (H1 & H2 & H3 & H4 & H5) (G1 & G2 & G3 & G4 & G5).
  repeat split; congruence.
Qed.

(** X6: the loop never writes the spawner set.  Whatever lines arrive,
    whatever the hide list holds and whenever HIDE_DONE comes in, init's
    fingerprint, the spawner fingerprints, their number and the cache
    statics are after the run what they were before it. *)
Theorem run_keeps_spawner_set fuel turns p :
  same_statics p (outcome_proc (monitor_run W hdr fuel turns p)).
Proof.
  revert p. induction turns as [|[log hide_list|] turns IH]; intros p;
    simpl.
  - by repeat split.
  - pose proof (turn_effect fuel hide_list log p) as [Hs _].
    destruct (handle_log W hdr fuel hide_list log p) as [p'|p'|p'];
      simpl in Hs; [|done..].
    eapply same_statics_trans; [exact Hs | apply IH].
  - eapply same_statics_trans; [apply hide_done_same_statics | apply IH].
Qed.

(** X7: over a run the counter moves with the trace: it ends at its
    first value plus the forks minus the HIDE_DONE handlers of the run,
    as long as that many steps cannot take it out of the range of an
    int. *)
Theorem run_counter_follows_trace fuel turns p :
  Z.abs (hide_queue p) + Z.of_nat (List.length turns) < 2 ^ 31 ->
  let p' := outcome_proc (monitor_run W hdr fuel turns p) in
  hide_queue p' = hide_queue p + pending (issued p p').
Proof.
  cbv zeta. intros Hb.
  enough (H : exists evs,
             trace (outcome_proc (monitor_run W hdr fuel turns p))
             = trace p ++ evs
             /\ hide_queue (outcome_proc (monitor_run W hdr fuel turns p))
                = hide_queue p + pending evs).
  { destruct H as (evs & Ht & Hq).
    by rewrite (issued_grows _ _ _ Ht). }
  revert p Hb. induction turns as [|[log hide_list|] turns IH]; intros p Hb;
    simpl in Hb |- *.
  - exists []. rewrite app_nil_r. simpl. split; [done | lia].
  - pose proof (turn_effect fuel hide_list log p) as [_ (evs & Ht & Hq)].
    assert (Hstep : hide_queue
                      (outcome_proc (handle_log W hdr fuel hide_list log p))
                    = hide_queue p + pending evs).
    { destruct Hq as [[-> ->]|[-> ->]]; [lia|].
      rewrite wrap_int_small; lia. }
    assert (Hpend : -1 <= pending evs <= 1).
    { destruct Hq as [[_ ->]|[_ ->]]; lia. }
    destruct (handle_log W hdr fuel hide_list log p) as [p'|p'|p'];
      simpl in Ht, Hstep; [|by exists evs..].
    destruct (IH p') as (evs' & Ht' & Hq'); [lia|].
    exists (evs ++ evs'). split.
    + by rewrite Ht', Ht, app_assoc.
    + rewrite Hq', Hstep, pending_app. lia.
  - assert (Hq : hide_queue (hide_done hdr p) = hide_queue p - 1).
    { rewrite hide_done_hide_queue. apply wrap_int_small. lia. }
    assert (Hp : pending (EvDelivered HIDE_DONE
                            :: (if wrap_int (hide_queue p - 1) =? 0
                                then restore_events hdr else [])) = -1).
    { by destruct (wrap_int (hide_queue p - 1) =? 0). }
    destruct (IH (hide_done hdr p)) as (evs' & Ht' & Hq'); [lia|].
    eexists. split.
    + rewrite Ht', hide_done_trace, <- app_assoc. reflexivity.
    + rewrite Hq', Hq, pending_app, Hp. lia.
Qed.

End RunFacts.

(** ** store_zygote_ns, further *)

Section StoreFacts.

Variable W : world.

Lemma zygote_slot_stored (l : list string) n x p :
  (n < List.length l)%nat -> zygote_num p = n ->
  zygote_slot (set_zygote_ns (<[n := x]> l) p) = x.
Proof.
  intros Hn Hp. unfold zygote_slot. simpl. rewrite Hp.
  by rewrite list_lookup_insert_eq.
Qed.

(** One turn of the do-while, whatever the read gives. *)
Lemma store_zygote_poll_turn fuel pid p :
  (zygote_num p < List.length (zygote_ns p))%nat ->
  exists x link,
    let p' := set_zygote_ns (<[zygote_num p := x]> (zygote_ns p))
                (set_trace (trace p ++ [EvUsleep 500; EvReadNs pid link]) p) in
    store_zygote_poll W (S fuel) pid p
    = (if streq x (init_ns p) then store_zygote_poll W fuel pid p'
       else Done p')
    /\ link = w_mnt_ns W (S (now p)) pid
    /\ x = default (zygote_slot p) link.
Proof.
  intros Hn. cbn [store_zygote_poll].
  unfold read_namespace. rewrite now_emit.
  set (link := w_mnt_ns W (S (now p)) pid).
  exists (default (zygote_slot p) link), link.
  split; [|done]. cbv zeta.
  assert (Hp2 : emit (EvReadNs pid link) (emit (EvUsleep 500) p)
                = set_trace (trace p ++ [EvUsleep 500; EvReadNs pid link]) p).
  { unfold emit. simpl. by rewrite <- app_assoc. }
  change (zygote_slot (emit (EvUsleep 500) p)) with (zygote_slot p).
  destruct link as [l|]; simpl default; cbv iota beta; rewrite Hp2;
    simpl zygote_num; simpl zygote_ns;
    rewrite zygote_slot_stored by done; reflexivity.
Qed.

(** The poll ends only with a fingerprint other than init's in the
    slot; the other slots and statics are as they were. *)
Lemma store_zygote_poll_done pid : forall fuel p p',
  (zygote_num p < List.length (zygote_ns p))%nat ->
  store_zygote_poll W fuel pid p = Done p' ->
  exists x evs,
    x <> init_ns p
    /\ p' = set_zygote_ns (<[zygote_num p := x]> (zygote_ns p))
              (set_trace (trace p ++ evs) p).
Proof.
  induction fuel as [|fuel IH]; intros p p' Hn Hrun; [done|].
  destruct (store_zygote_poll_turn fuel pid p Hn) as (x & link & Heq & _ & _).
  cbv zeta in Heq. rewrite Heq in Hrun. clear Heq.
  destruct (streq x (init_ns p)) eqn:Hx.
  - apply IH in Hrun; [|simpl; by rewrite length_insert].
    destruct Hrun as (y & evs & Hy & ->). simpl.
    exists y, ([EvUsleep 500; EvReadNs pid link] ++ evs).
    split; [done|].
    rewrite list_insert_insert_eq. by rewrite <- app_assoc.
  - apply streq_false in Hx. inversion Hrun; subst.
    by exists x, [EvUsleep 500; EvReadNs pid link].
Qed.

Lemma store_zygote_ns_done_shape fuel pid p p' :
  List.length (zygote_ns p) = 2%nat ->
  (zygote_num p <= 2)%nat ->
  store_zygote_ns W fuel pid p = Done p' ->
  (zygote_num p = 2%nat -> p' = p)
  /\ ((zygote_num p < 2)%nat ->
      exists x,
        x <> init_ns p
        /\ spawners p' = spawners p ++ [x]
        /\ zygote_num p' = S (zygote_num p)
        /\ List.length (zygote_ns p') = 2%nat
        /\ init_ns p' = init_ns p
        /\ hide_queue p' = hide_queue p
        /\ cache_block p' = cache_block p
        /\ has_cache p' = has_cache p).
Proof.
  intros Hlen Hle Hrun. unfold store_zygote_ns in Hrun. split.
  - intros H2. rewrite H2 in Hrun. simpl in Hrun. by inversion Hrun.
  - intros Hlt.
    assert (Hne : (zygote_num p =? 2)%nat = false)
      by (apply Nat.eqb_neq; lia).
    rewrite Hne in Hrun.
    destruct (store_zygote_poll W fuel pid p) as [q|q|q] eqn:Hpoll;
      [|done..].
    inversion Hrun; subst p'; clear Hrun.
    apply store_zygote_poll_done in Hpoll; [|lia].
    destruct Hpoll as (x & evs & Hx & ->).
    exists x. split; [done|]. simpl. split; [|by rewrite length_insert].
    unfold spawners. simpl.
    rewrite (take_S_r _ _ x) by (apply list_lookup_insert_eq; lia).
    f_equal. apply take_insert_ge. lia.
Qed.

Lemma store_zygote_ns_keeps_ok fuel pid p p' :
  spawners_ok p ->
  store_zygote_ns W fuel pid p = Done p' ->
  spawners_ok p' /\ (zygote_num p <= zygote_num p')%nat
  /\ init_ns p' = init_ns p /\ hide_queue p' = hide_queue p
  /\ cache_block p' = cache_block p
  /\ exists evs, trace p' = trace p ++ evs.
Proof.
  intros (Hlen & Hle & Hall) Hrun.
  pose proof (store_zygote_ns_done_shape fuel pid p p' Hlen Hle Hrun)
    as [Hfull Hfree].
  destruct (decide (zygote_num p = 2%nat)) as [H2|H2].
  - rewrite (Hfull H2). repeat split; try done.
    exists []. by rewrite app_nil_r.
  - destruct Hfree as (x & Hx & Hsp & Hnum & Hlen' & Hinit & Hq & Hc & _);
      [lia|].
    split; [|split; [lia | split; [done | split; [done | split; [done|]]]]].
    + split; [done|]. split; [lia|].
      rewrite Hsp, Hinit. apply Forall_app. split; [done|].
      by constructor.
    + unfold store_zygote_ns in Hrun.
      destruct (zygote_num p =? 2)%nat; [by inversion Hrun; subst; exists []; rewrite app_nil_r|].
      destruct (store_zygote_poll W fuel pid p) as [q|q|q] eqn:Hpoll;
        [|done..].
      inversion Hrun; subst p'.
      apply store_zygote_poll_done in Hpoll; [|lia].
      destruct Hpoll as (y & evs & _ & ->). by exists evs.
Qed.

(** X8: store_zygote_ns never overruns the two slots and never records
    init's fingerprint.  With both slots taken it does nothing; else,
    when it returns, one fingerprint has been added behind the ones
    recorded before, it differs from init's, and nothing but the trace
    has changed besides. *)
Theorem store_zygote_ns_records_one fuel pid p p' :
  List.length (zygote_ns p) = 2%nat ->
  (zygote_num p <= 2)%nat ->
  store_zygote_ns W fuel pid p = Done p' ->
  (zygote_num p = 2%nat -> p' = p)
  /\ ((zygote_num p < 2)%nat ->
      exists x,
        x <> init_ns p
        /\ spawners p' = spawners p ++ [x]
        /\ zygote_num p' = S (zygote_num p)
        /\ List.length (zygote_ns p') = 2%nat
        /\ init_ns p' = init_ns p
        /\ hide_queue p' = hide_queue p
        /\ cache_block p' = cache_block p
        /\ has_cache p' = has_cache p).
Proof. apply store_zygote_ns_done_shape. Qed.

(** X9: store_zygote_ns waits for the spawner to leave init's
    namespace.  If the first [n] reads give init's fingerprint and the
    next one gives [s], it returns after [n + 1] sleeps of 500
    microseconds with [s] recorded. *)
Theorem store_zygote_ns_waits_for_unshare n extra pid s : forall p,
  List.length (zygote_ns p) = 2%nat ->
  (zygote_num p < 2)%nat ->
  (forall k, (k < n)%nat ->
             w_mnt_ns W (now p + 2 * k + 1)%nat pid = Some (init_ns p)) ->
  w_mnt_ns W (now p + 2 * n + 1)%nat pid = Some s ->
  s <> init_ns p ->
  exists p',
    store_zygote_ns W (S n + extra) pid p = Done p'
    /\ spawners p' = spawners p ++ [s]
    /\ issued p p'
       = concat (replicate n [EvUsleep 500; EvReadNs pid (Some (init_ns p))])
         ++ [EvUsleep 500; EvReadNs pid (Some s)].
Proof.
  intros p Hlen Hlt Hinit Hs Hne.
  assert (Hne2 : (zygote_num p =? 2)%nat = false)
    by (apply Nat.eqb_neq; lia).
  unfold store_zygote_ns. rewrite Hne2. clear Hne2.
  enough (H : exists l evs,
             store_zygote_poll W (S n + extra) pid p
             = Done (set_zygote_ns l (set_trace (trace p ++ evs) p))
             /\ l !! zygote_num p = Some s
             /\ take (zygote_num p) l = take (zygote_num p) (zygote_ns p)
             /\ evs = concat (replicate n [EvUsleep 500;
                                           EvReadNs pid (Some (init_ns p))])
                      ++ [EvUsleep 500; EvReadNs pid (Some s)]).
  { destruct H as (l & evs & -> & Hl & Htake & Hevs).
    eexists. split; [reflexivity|]. split.
    - unfold spawners. simpl. rewrite (take_S_r _ _ s) by done.
      by rewrite Htake.
    - apply issued_grows. simpl. by rewrite Hevs. }
  revert p Hlen Hlt Hinit Hs Hne.
  induction n as [|n IH]; intros p Hlen Hlt Hinit Hs Hne.
  - destruct (store_zygote_poll_turn (0 + extra) pid p)
      as (x & link & Heq & Hlink & Hx); [lia|].
    replace (now p + 2 * 0 + 1)%nat with (S (now p)) in Hs by lia.
    rewrite Hs in Hlink. subst link. simpl in Hx. subst x.
    cbv zeta in Heq. apply streq_false in Hne. rewrite Hne in Heq.
    eexists _, _. split; [exact Heq|].
    split; [apply list_lookup_insert_eq; lia|].
    split; [apply take_insert_ge; lia | reflexivity].
  - destruct (store_zygote_poll_turn (S n + extra) pid p)
      as (x & link & Heq & Hlink & Hx); [lia|].
    pose proof (Hinit 0%nat ltac:(lia)) as H0.
    replace (now p + 2 * 0 + 1)%nat with (S (now p)) in H0 by lia.
    rewrite H0 in Hlink. subst link. simpl in Hx. subst x.
    cbv zeta in Heq. unfold streq in Heq. rewrite String.eqb_refl in Heq.
    set (q := set_zygote_ns (<[zygote_num p:=init_ns p]> (zygote_ns p))
                (set_trace (trace p ++ [EvUsleep 500;
                                        EvReadNs pid (Some (init_ns p))]) p))
      in Heq.
    assert (Hnow : now q = (now p + 2)%nat).
    { subst q. unfold now. simpl. rewrite length_app. simpl. lia. }
    assert (Hq1 : init_ns q = init_ns p) by done.
    assert (Hq2 : zygote_num q = zygote_num p) by done.
    destruct (IH q) as (l & evs & Hrun & Hl & Htake & Hevs).
    + subst q. simpl. by rewrite length_insert.
    + by rewrite Hq2.
    + intros k Hk. rewrite Hnow, Hq1.
      replace (now p + 2 + 2 * k + 1)%nat
        with (now p + 2 * (S k) + 1)%nat by lia.
      apply Hinit. lia.
    + rewrite Hnow.
      replace (now p + 2 + 2 * n + 1)%nat
        with (now p + 2 * (S n) + 1)%nat by lia.
      exact Hs.
    + by rewrite Hq1.
    + change (S (S n) + extra)%nat with (S (S n + extra)).
      rewrite Heq, Hrun. rewrite Hq1, Hq2 in *.
      exists l, ([EvUsleep 500; EvReadNs pid (Some (init_ns p))] ++ evs).
      split; [|split; [done | split]].
      * subst q. simpl. by rewrite <- app_assoc.
      * rewrite Htake. subst q. simpl. apply take_insert_ge. lia.
      * rewrite Hevs. reflexivity.
Qed.

End StoreFacts.

(** ** A candidate that leaves the spawner's namespace in the end *)

Section SettlingFacts.

Variable W : world.
Variable hdr : header.
Variable pid : Z.
Variable s : string.
Variable T : nat.
Hypothesis settled : forall t, (T <= t)%nat -> w_mnt_ns W t pid = Some s.

Lemma ns_round_settled : forall zs ns p,
  (T <= now p)%nat -> s ∉ zs ->
  exists ns' evs,
    ns_round W pid zs ns p = (1, ns', set_trace (trace p ++ evs) p).
Proof.
  induction zs as [|z zs IH]; intros ns p Hnow Hout; simpl.
  - exists ns, []. rewrite app_nil_r. by destruct p.
  - apply not_elem_of_cons in Hout as [Hne Hout].
    unfold read_namespace. rewrite settled by done.
    apply streq_false in Hne. rewrite Hne.
    destruct (IH s (emit (EvReadNs pid (Some s)) p)) as (ns' & evs & ->);
      [rewrite now_emit; lia | done |].
    exists ns', ([EvReadNs pid (Some s)] ++ evs). simpl.
    by rewrite <- app_assoc.
Qed.

(** A round that found a spawner's fingerprint has taken time. *)
Lemma ns_round_match_takes_time : forall zs ns p ns' p',
  ns_round W pid zs ns p = (0, ns', p') -> (now p < now p')%nat.
Proof.
  induction zs as [|z zs IH]; intros ns p ns' p' Hrun; simpl in Hrun;
    [done|].
  pose proof (read_namespace_grows W pid ns p) as Hg.
  destruct (read_namespace W pid ns p) as [[r ns1] p1]. simpl in Hg.
  assert (H1 : now p1 = S (now p)).
  { unfold now. rewrite (grows_trace _ _ _ Hg), length_app. simpl. lia. }
  destruct (streq ns1 z).
  - inversion Hrun; subst. rewrite now_emit. lia.
  - apply IH in Hrun. lia.
Qed.

Lemma ns_poll_settles zs : forall fuel ns p,
  s ∉ zs -> (T <= now p + fuel)%nat ->
  exists ns' evs,
    ns_poll W (S fuel) pid zs ns p
    = PollDone ns' (set_trace (trace p ++ evs) p).
Proof.
  induction fuel as [|fuel IH]; intros ns p Hout Hnow.
  - destruct (ns_round_settled zs ns p) as (ns' & evs & Hr); [lia | done |].
    simpl. rewrite Hr. simpl. by exists ns', evs.
  - cbn [ns_poll].
    destruct (ns_round_grows W pid zs ns p) as (evs1 & Hg1 & _).
    destruct (ns_round W pid zs ns p) as [[ret ns1] p1] eqn:Hr.
    simpl in Hg1. destruct (ret =? 0) eqn:Hret.
    + apply Z.eqb_eq in Hret. subst ret.
      apply ns_round_match_takes_time in Hr.
      destruct (IH ns1 p1) as (ns' & evs & Hrun); [done | lia |].
      cbn [ns_poll] in Hrun. rewrite Hrun.
      exists ns', (evs1 ++ evs). rewrite Hg1. simpl.
      by rewrite app_assoc.
    + exists ns1, evs1. by rewrite Hg1.
Qed.

Lemma scan_settles name fuel : forall lines ns p,
  s ∉ spawners p -> (T <= now p + fuel)%nat ->
  exists p' evs,
    scan_hide_list W hdr (S fuel) pid name ns lines p = Done p'
    /\ trace p' = trace p ++ evs
    /\ (name ∈ lines -> Exists (fun e => is_freeze pid e = true) evs).
Proof.
  induction lines as [|line rest IH]; intros ns p Hout Hnow.
  - exists p, []. rewrite app_nil_r. split; [done|]. split; [done|].
    intros Hin. by apply elem_of_nil in Hin.
  - cbn [scan_hide_list].
    destruct (streq name line) eqn:Heq.
    + destruct (ns_poll_settles (spawners p) fuel ns p Hout Hnow)
        as (ns' & evs & Hpoll).
      cbn [ns_poll] in Hpoll |- *. rewrite Hpoll. cbv zeta.
      set (p1 := set_trace (trace p ++ evs) p).
      assert (Hfreeze : forall ok,
                 is_freeze pid (EvKill pid SIGSTOP ok) = true).
      { intros ok. simpl. apply Z.eqb_refl. }
      destruct (w_kill W (now p1) pid SIGSTOP) eqn:Hk; simpl negb; cbv iota.
      * eexists _, _. split; [reflexivity|]. split.
        -- rewrite dispatch_trace, trace_emit. subst p1. simpl.
           rewrite <- !app_assoc. reflexivity.
        -- intros _. apply Exists_app. right. by constructor.
      * destruct (IH ns' (emit (EvKill pid SIGSTOP false) p1))
          as (p' & evs' & Hrun & Ht & _).
        -- done.
        -- rewrite now_emit. subst p1. unfold now in *. simpl.
           rewrite length_app. lia.
        -- cbn [scan_hide_list ns_poll] in Hrun. rewrite Hrun.
           exists p', (evs ++ [EvKill pid SIGSTOP false] ++ evs').
           split; [done|]. split.
           ++ rewrite Ht, trace_emit. subst p1. simpl.
              by rewrite <- !app_assoc.
           ++ intros _. apply Exists_app. right. by constructor.
    + apply streq_false in Heq.
      destruct (IH ns p Hout Hnow) as (p' & evs & Hrun & Ht & Hin).
      cbn [scan_hide_list ns_poll] in Hrun. rewrite Hrun.
      exists p', evs. split; [done|]. split; [done|].
      intros Hin'. apply elem_of_cons in Hin' as [?|?]; [done | by apply Hin].
Qed.

(** X10: the poll closes the race with the candidate's unshare.  If
    from some time on every read of the candidate's namespace gives one
    fingerprint that is none of the spawners', the turn for a listed
    process ends, given the fuel to get to that time, and SIGSTOP has
    been sent to the candidate in it. *)
Theorem candidate_frozen_once_unshared fuel hide_list log name p :
  parse_line log = Parsed pid name ->
  name ∈ hide_list ->
  s ∉ spawners p ->
  (T <= now p + fuel)%nat ->
  exists p',
    handle_log W hdr (S fuel) hide_list (Some log) p = Done p'
    /\ Exists (fun e => is_freeze pid e = true) (issued p p').
Proof.
  intros Hparse Hin Hout Hnow. unfold handle_log. rewrite Hparse.
  destruct (scan_settles name fuel hide_list (w_garbage W (now p))
                         (emit EvLock p))
    as (p' & evs & Hrun & Ht & Hfreeze).
  - done.
  - rewrite now_emit. lia.
  - cbn [scan_hide_list ns_poll] in Hrun. rewrite Hrun.
    exists (emit EvUnlock p'). split; [done|].
    rewrite (issued_grows p ([EvLock] ++ evs ++ [EvUnlock])).
    + apply Exists_app. right. apply Exists_app. left. by apply Hfreeze.
    + rewrite trace_emit, Ht, trace_emit. by rewrite <- !app_assoc.
Qed.

End SettlingFacts.

(** ** The worker, further *)

Lemma scan_token_whole w r : forall n,
  all_chars (fun c => negb (isspace c)) w = true ->
  (String.length w <= n)%nat ->
  scan_token n (w +:+ String " " r) = (w, String " " r).
Proof.
  induction w as [|c w IH]; intros n Hw Hn.
  - by destruct n.
  - simpl in Hw, Hn. apply andb_true_iff in Hw as [Hc Hw].
    apply negb_true_iff in Hc.
    destruct n as [|n]; [lia|]. simpl. rewrite Hc.
    rewrite IH by (done || lia). reflexivity.
Qed.

Lemma scan_token_alone w : forall n,
  all_chars (fun c => negb (isspace c)) w = true ->
  (String.length w <= n)%nat ->
  scan_token n w = (w, "").
Proof.
  induction w as [|c w IH]; intros n Hw Hn.
  - by destruct n.
  - simpl in Hw, Hn. apply andb_true_iff in Hw as [Hc Hw].
    apply negb_true_iff in Hc.
    destruct n as [|n]; [lia|]. simpl. rewrite Hc.
    rewrite IH by (done || lia). reflexivity.
Qed.

Lemma token_head w :
  is_token w = true ->
  exists c r, w = String c r /\ isspace c = false
              /\ all_chars (fun c => negb (isspace c)) w = true.
Proof.
  unfold is_token. intros H. apply andb_true_iff in H as [Hne Hw].
  destruct w as [|c r]; [done|]. exists c, r.
  split; [done|]. split; [|done].
  simpl in Hw. apply andb_true_iff in Hw as [Hc _].
  by apply negb_true_iff in Hc.
Qed.

Lemma string_length_append a b :
  String.length (a +:+ b) = (String.length a + String.length b)%nat.
Proof. induction a as [|c a IH]; simpl; [done | by rewrite IH]. Qed.

(** [%Ns] on a field that is followed by a space. *)
Lemma scan_str_token width w r :
  is_token w = true ->
  match width with
  | Some n => (String.length w <= n)%nat
  | None => True
  end ->
  scan_str width (w +:+ String " " r) = Conv w (String " " r).
Proof.
  intros Hw Hn. destruct (token_head w Hw) as (c & w' & -> & Hc & Hall).
  unfold scan_str.
  change (String c w' +:+ String " " r)
    with (String c (w' +:+ String " " r)).
  rewrite (skip_space_stop c _ Hc).
  change (String c (w' +:+ String " " r))
    with (String c w' +:+ String " " r).
  rewrite scan_token_whole; [done | done |].
  destruct width as [n|]; [done|].
  rewrite string_length_append. lia.
Qed.

Lemma scan_mountpoint_field dev mp rest buffer :
  is_token dev = true -> is_token mp = true ->
  fits 4096 mp = true ->
  scan_mountpoint (mount_line dev mp rest) buffer = mp.
Proof.
  intros Hdev Hmp Hlen. unfold fits in Hlen. apply Nat.ltb_lt in Hlen.
  unfold scan_mountpoint, mount_line, sscanf.
  change (dev +:+ " " +:+ mp +:+ " " +:+ rest)
    with (dev +:+ String " " (mp +:+ String " " rest)).
  cbn [sscanf_from]. rewrite scan_str_token by done.
  cbn [sscanf_from].
  destruct (token_head mp Hmp) as (c & mp' & -> & Hc & _).
  change (skip_space (String " " (String c mp' +:+ String " " rest)))
    with (skip_space (String c (mp' +:+ String " " rest))).
  rewrite (skip_space_stop c _ Hc).
  change (String c (mp' +:+ String " " rest))
    with (String c mp' +:+ String " " rest).
  rewrite scan_str_token; [done | done | lia].
Qed.

Lemma scan_mountpoint_alone line buffer :
  is_token line = true -> scan_mountpoint line buffer = buffer.
Proof.
  intros Hline. destruct (token_head line Hline) as (c & r & -> & Hc & Hall).
  unfold scan_mountpoint, sscanf. cbn [sscanf_from].
  unfold scan_str at 1. rewrite (skip_space_stop c _ Hc).
  rewrite scan_token_alone by done. reflexivity.
Qed.

Section UnmountFacts.

Variable W : world.

(** X11: the mount point handed to umount2 for a line the pass picks
    is the second field of that line, when that field has fewer than
    4096 characters and so has room in [buffer] with its terminator. *)
Theorem unmount_takes_second_field sel dev mp rest lines buffer p :
  sel (mount_line dev mp rest) = true ->
  is_token dev = true -> is_token mp = true ->
  (String.length mp < 4096)%nat ->
  unmount_pass W sel (mount_line dev mp rest :: lines) buffer p
  = unmount_pass W sel lines mp
                 (emit (EvUmount mp (w_umount W (now p) mp)) p).
Proof.
  intros Hsel Hdev Hmp Hlen. cbn [unmount_pass]. rewrite Hsel.
  rewrite scan_mountpoint_field; [done | done | done |].
  by apply Nat.ltb_lt.
Qed.

(** X12: for a picked line that has one field only, sscanf stores
    nothing and umount2 is called on what the buffer held before: the
    mount point of the line picked last, or the path of the mount table
    when there was none. *)
Theorem unmount_of_single_field_line sel line lines buffer p :
  sel line = true ->
  is_token line = true ->
  unmount_pass W sel (line :: lines) buffer p
  = unmount_pass W sel lines buffer
                 (emit (EvUmount buffer (w_umount W (now p) buffer)) p).
Proof.
  intros Hsel Hline. cbn [unmount_pass]. rewrite Hsel.
  by rewrite scan_mountpoint_alone.
Qed.



End UnmountFacts.

(** ** The worker does not look at what umount2 and kill answer *)

Section ResultFacts.

Variable W1 W2 : world.
Hypothesis same : same_but_results W1 W2.

Lemma alike_now p1 p2 : alike p1 p2 -> now p1 = now p2.
Proof.
  intros (Ht & _). unfold now.
  by rewrite <- (length_map call_of (trace p1)), Ht, length_map.
Qed.

Lemma alike_emit e1 e2 p1 p2 :
  alike p1 p2 -> call_of e1 = call_of e2 -> alike (emit e1 p1) (emit e2 p2).
Proof.
  intros (Ht & Hc & Hh) He. unfold alike. simpl.
  rewrite !map_app, Ht. simpl. by rewrite He.
Qed.

Lemma unmount_pass_alike sel : forall lines buffer p1 p2,
  alike p1 p2 ->
  (unmount_pass W1 sel lines buffer p1).1
  = (unmount_pass W2 sel lines buffer p2).1
  /\ alike (unmount_pass W1 sel lines buffer p1).2
           (unmount_pass W2 sel lines buffer p2).2.
Proof.
  induction lines as [|line rest IH]; intros buffer p1 p2 Hal; simpl;
    [done|].
  destruct (sel line); [|by apply IH].
  apply IH. unfold lazy_unmount. by apply alike_emit.
Qed.

Lemma find_cache_block_alike : forall lines p1 p2,
  alike p1 p2 ->
  alike (find_cache_block lines p1) (find_cache_block lines p2).
Proof.
  induction lines as [|line rest IH]; intros p1 p2 Hal; simpl; [done|].
  destruct (found (strstr line " /cache ")); [|by apply IH].
  destruct Hal as (Ht & Hc & Hh). unfold alike. simpl. by rewrite Hc.
Qed.

Lemma unmount_all_alike pid p1 p2 :
  alike p1 p2 -> alike (unmount_all W1 pid p1) (unmount_all W2 pid p2).
Proof.
  intros Hal. destruct same as (_ & Hfile & _).
  unfold unmount_all, file_to_vector.
  rewrite <- (alike_now _ _ Hal), <- Hfile.
  set (path := mounts_path pid).
  set (table := w_file W1 (now p1) path).
  assert (Hal0 : alike (emit (EvReadFile path) p1)
                       (emit (EvReadFile path) p2))
    by (by apply alike_emit).
  set (q1 := emit (EvReadFile path) p1) in *.
  set (q2 := emit (EvReadFile path) p2) in *.
  set (r1 := if negb (has_cache q1 =? 0) && streq (cache_block q1) ""
             then _ else q1).
  set (r2 := if negb (has_cache q2 =? 0) && streq (cache_block q2) ""
             then _ else q2).
  assert (Hal1 : alike r1 r2).
  { subst r1 r2. destruct Hal0 as (Ht & Hc & Hh). rewrite <- Hc, <- Hh.
    destruct (negb (has_cache q1 =? 0) && streq (cache_block q1) "");
      [|done].
    pose proof (find_cache_block_alike table q1 q2
                  (conj Ht (conj Hc Hh))) as (Ht' & Hc' & Hh').
    rewrite <- Hc'.
    destruct (String.length (cache_block (find_cache_block table q1)) =? 0)%nat;
      [|done].
    by repeat split. }
  clearbody r1 r2.
  set (s1 := if negb (has_cache r1 =? 0) then _ else (path, r1)).
  set (s2 := if negb (has_cache r2 =? 0) then _ else (path, r2)).
  assert (Hal2 : s1.1 = s2.1 /\ alike s1.2 s2.2).
  { subst s1 s2. pose proof Hal1 as (Ht & Hc & Hh). rewrite <- Hc, <- Hh.
    destruct (negb (has_cache r1 =? 0)); [|done].
    by apply unmount_pass_alike. }
  clearbody s1 s2. destruct s1 as [b1 t1], s2 as [b2 t2].
  simpl in Hal2. destruct Hal2 as [<- Hal2].
  pose proof (unmount_pass_alike is_dummy_mount table b1 t1 t2 Hal2)
    as [_ Hal3].
  destruct (unmount_pass W1 is_dummy_mount table b1 t1) as [b3 u1].
  destruct (unmount_pass W2 is_dummy_mount table b1 t2) as [b4 u2].
  simpl in Hal3.
  rewrite <- (alike_now _ _ Hal3), <- Hfile.
  pose proof (unmount_pass_alike is_loop_mount (w_file W1 (now u1) path) path
                (emit (EvReadFile path) u1) (emit (EvReadFile path) u2))
    as [_ Hal4]; [by apply alike_emit|].
  destruct (unmount_pass W1 is_loop_mount (w_file W1 (now u1) path) path
              (emit (EvReadFile path) u1)) as [b5 v1].
  destruct (unmount_pass W2 is_loop_mount (w_file W1 (now u1) path) path
              (emit (EvReadFile path) u2)) as [b6 v2].
  exact Hal4.
Qed.

(** X14: no unmount is retried and none stops the rest.  In two worlds
    that differ only in what umount2 and kill answer the worker makes
    the same calls in the same order. *)
Theorem worker_calls_ignore_results pid ppid p :
  map call_of (trace (outcome_proc (hide_daemon W1 pid ppid p)))
  = map call_of (trace (outcome_proc (hide_daemon W2 pid ppid p))).
Proof.
  destruct same as (Hsetns & _ & Hfree).
  unfold hide_daemon. rewrite !now_emit, <- Hsetns.
  set (joined := w_setns W1 (S (S (now p))) pid).
  set (p3 := emit (EvSetns pid joined) _).
  assert (Hal : alike (if joined then unmount_all W1 pid p3 else p3)
                      (if joined then unmount_all W2 pid p3 else p3)).
  { destruct joined; [apply unmount_all_alike|]; by repeat split. }
  set (q1 := if joined then unmount_all W1 pid p3 else p3) in *.
  set (q2 := if joined then unmount_all W2 pid p3 else p3) in *.
  clearbody q1 q2.
  rewrite <- (alike_now _ _ Hal), <- Hfree.
  destruct Hal as (Ht & _).
  destruct (negb (joined || w_wild_free W1 (S (now q1)))); simpl;
    rewrite !map_app, Ht; reflexivity.
Qed.

End ResultFacts.

(** ** Start-up and cancellation *)

Section StartUpFacts.

Variable W : world.
Variable Src : Thread.sources.

Lemma store_each_keeps_ok fuel : forall pids p p',
  spawners_ok p ->
  Thread.store_each W fuel pids p = Done p' ->
  spawners_ok p' /\ (zygote_num p <= zygote_num p')%nat
  /\ init_ns p' = init_ns p /\ hide_queue p' = hide_queue p
  /\ cache_block p' = cache_block p.
Proof.
  induction pids as [|pid pids IH]; intros p p' Hok Hrun; simpl in Hrun.
  - inversion Hrun; subst. split; [exact Hok|]. split; [lia | done].
  - destruct (store_zygote_ns W fuel pid p) as [q|q|q] eqn:Hq; [|done..].
    apply store_zygote_ns_keeps_ok in Hq as (Hok' & Hn & Hi & Hh & Hc & _);
      [|done].
    apply IH in Hrun as (Hok'' & Hn' & Hi' & Hh' & Hc'); [|done].
    split; [exact Hok''|]. split; [lia|].
    repeat split; congruence.
Qed.

Lemma spawners_ok_emit e p : spawners_ok p -> spawners_ok (emit e p).
Proof. done. Qed.

Lemma find_zygote_keeps_ok fuel : forall scans p p',
  spawners_ok p ->
  Thread.find_zygote W Src scans fuel p = Done p' ->
  spawners_ok p' /\ (1 <= zygote_num p')%nat
  /\ init_ns p' = init_ns p /\ hide_queue p' = hide_queue p
  /\ cache_block p' = cache_block p.
Proof.
  induction scans as [|scans IH]; intros p p' Hok Hrun; [done|].
  cbn [Thread.find_zygote] in Hrun.
  destruct (zygote_num p =? 0)%nat eqn:Hz.
  - unfold Thread.ps_filter_proc_name in Hrun.
    destruct (Thread.store_each W fuel _ (emit (EvSleep 2) p))
      as [q|q|q] eqn:Hq; [|done..].
    apply store_each_keeps_ok in Hq as (Hok' & _ & Hi & Hh & Hc);
      [|by apply spawners_ok_emit].
    simpl in Hi, Hh, Hc.
    apply IH in Hrun as (Hok'' & Hn & Hi' & Hh' & Hc'); [|done].
    split; [exact Hok''|]. split; [done|].
    repeat split; congruence.
  - inversion Hrun; subst. apply Nat.eqb_neq in Hz.
    split; [exact Hok|]. split; [lia | done].
Qed.

(** X15: when start-up gets to the loop, init's fingerprint is the
    link read from process 1, one or two spawner fingerprints are
    recorded and none of them is init's, the cache block is unknown,
    the counter is what it was, both handlers are installed and the
    listener writes to the pipe the loop reads. *)
Theorem start_up_postcondition scans fuel t t' :
  List.length (zygote_ns (Thread.statics t)) = 2%nat ->
  Thread.start_up W Src scans fuel t = Thread.Listening t' ->
  let p := Thread.statics t in
  let p' := Thread.statics t' in
  w_mnt_ns W (now p) 1 = Some (init_ns p')
  /\ spawners_ok p'
  /\ (1 <= zygote_num p')%nat
  /\ cache_block p' = ""
  /\ hide_queue p' = hide_queue p
  /\ Thread.handlers t' = [TERM_THREAD; HIDE_DONE]
  /\ Thread.listener_fd t' = (Thread.pipefd t').2
  /\ Thread.hide_list t' = Thread.hide_list t
  /\ Thread.hideEnabled t' = Thread.hideEnabled t.
Proof.
  intros Hlen Hrun. cbv zeta. unfold Thread.start_up in Hrun.
  unfold read_namespace in Hrun. simpl Thread.statics in Hrun.
  change (now (set_cache_block "" (Thread.statics t)))
    with (now (Thread.statics t)) in Hrun.
  destruct (w_mnt_ns W (now (Thread.statics t)) 1) as [link|] eqn:Hlink;
    [|done].
  cbv beta iota zeta in Hrun. simpl (negb (0 =? 0)) in Hrun.
  cbv iota in Hrun.
  set (p0 := set_zygote_num 0 _) in Hrun.
  assert (Hok0 : spawners_ok p0).
  { subst p0. split; [done|]. split; [simpl; lia | constructor]. }
  unfold Thread.lift in Hrun.
  destruct (Thread.find_zygote W Src scans fuel p0) as [q|q|q] eqn:Hq;
    [|done..].
  apply find_zygote_keeps_ok in Hq as (Hok1 & Hn1 & Hi1 & Hh1 & Hc1);
    [|done].
  unfold Thread.ps_filter_proc_name in Hrun.
  destruct (Thread.store_each W fuel _ q) as [r|r|r] eqn:Hr; [|done..].
  apply store_each_keeps_ok in Hr as (Hok2 & Hn2 & Hi2 & Hh2 & Hc2);
    [|done].
  inversion Hrun; subst t'; clear Hrun. simpl.
  split; [by rewrite Hi2, Hi1|].
  split; [done|]. split; [lia|].
  split; [by rewrite Hc2, Hc1|].
  split; [by rewrite Hh2, Hh1 | done].
Qed.

(** X16: when the namespace of process 1 cannot be read, start-up ends
    the thread through term_thread: the hide list is released, hiding
    is off, the listener and both ends of the pipe are -1; no spawner
    is looked for, and the counter and the fingerprints are left as
    they were. *)
Theorem start_up_without_namespaces scans fuel t :
  w_mnt_ns W (now (Thread.statics t)) 1 = None ->
  exists t',
    Thread.start_up W Src scans fuel t = Thread.Exited t'
    /\ Thread.hideEnabled t' = 0
    /\ Thread.hide_list t' = []
    /\ Thread.listener_fd t' = -1
    /\ Thread.pipefd t' = (-1, -1)
    /\ Thread.mutexes t' = false
    /\ issued (Thread.statics t) (Thread.statics t') = [EvReadNs 1 None]
    /\ hide_queue (Thread.statics t') = hide_queue (Thread.statics t)
    /\ init_ns (Thread.statics t') = init_ns (Thread.statics t)
    /\ zygote_ns (Thread.statics t') = zygote_ns (Thread.statics t)
    /\ zygote_num (Thread.statics t') = zygote_num (Thread.statics t).
Proof.
  intros Hnone. unfold Thread.start_up, read_namespace.
  simpl Thread.statics.
  change (now (set_cache_block "" (Thread.statics t)))
    with (now (Thread.statics t)).
  rewrite Hnone. cbv beta iota zeta. simpl (negb (1 =? 0)). cbv iota.
  eexists. split; [reflexivity|]. simpl.
  repeat split. apply issued_grows. reflexivity.
Qed.

Lemma find_zygote_absent fuel : forall scans p,
  (forall t, Thread.s_ps Src t "zygote" = []) ->
  zygote_num p = 0%nat ->
  Thread.find_zygote W Src scans fuel p
  = Spin (set_trace (trace p ++ replicate scans (EvSleep 2)) p).
Proof.
  induction scans as [|scans IH]; intros p Hps Hz.
  - simpl. rewrite app_nil_r. by destruct p.
  - cbn [Thread.find_zygote]. rewrite Hz. simpl (0 =? 0)%nat. cbv iota.
    unfold Thread.ps_filter_proc_name. rewrite Hps. simpl Thread.store_each.
    cbv iota. rewrite IH by done. simpl. by rewrite <- app_assoc.
Qed.

(** X17: as long as no process called zygote is found, start-up neither
    fails nor goes on: it sleeps two seconds and looks again, for as
    many scans as it is given, and the listener is not registered. *)
Theorem start_up_waits_for_zygote scans fuel t link :
  w_mnt_ns W (now (Thread.statics t)) 1 = Some link ->
  (forall time, Thread.s_ps Src time "zygote" = []) ->
  exists t',
    Thread.start_up W Src scans fuel t = Thread.Waiting t'
    /\ issued (Thread.statics t) (Thread.statics t')
       = EvReadNs 1 (Some link) :: replicate scans (EvSleep 2)
    /\ Thread.listener_fd t' = Thread.listener_fd t
    /\ Thread.pipefd t' = Thread.pipefd t
    /\ zygote_num (Thread.statics t') = 0%nat.
Proof.
  intros Hlink Hps. unfold Thread.start_up, read_namespace.
  simpl Thread.statics.
  change (now (set_cache_block "" (Thread.statics t)))
    with (now (Thread.statics t)).
  rewrite Hlink. cbv beta iota zeta. simpl (negb (0 =? 0)). cbv iota.
  rewrite find_zygote_absent by done.
  unfold Thread.lift. eexists. split; [reflexivity|]. simpl.
  split; [|done]. apply issued_grows. simpl.
  by rewrite <- app_assoc.
Qed.

End StartUpFacts.

Section StartUpFound.

Variable W : world.
Variable Src : Thread.sources.
Variable z : Z.
Variable s : string.

Lemma store_each_first_read fuel p :
  zygote_num p = 0%nat ->
  List.length (zygote_ns p) = 2%nat ->
  w_mnt_ns W (S (now p)) z = Some s ->
  s <> init_ns p ->
  Thread.store_each W (S fuel) [z] p
  = Done (set_zygote_num 1
            (set_zygote_ns (<[0%nat := s]> (zygote_ns p))
               (set_trace (trace p ++ [EvUsleep 500; EvReadNs z (Some s)])
                          p))).
Proof.
  intros Hz Hlen Hs Hne. cbn [Thread.store_each].
  unfold store_zygote_ns. rewrite Hz. simpl (0 =? 2)%nat. cbv iota.
  destruct (store_zygote_poll_turn W fuel z p)
    as (x & link & Heq & Hlink & Hx); [lia|].
  rewrite Hs in Hlink. subst link. simpl in Hx. subst x.
  cbv zeta in Heq. apply streq_false in Hne. rewrite Hne in Heq.
  rewrite Heq, Hz. simpl. by rewrite Hz.
Qed.

Lemma find_zygote_found extra fuel : forall k p,
  zygote_num p = 0%nat ->
  List.length (zygote_ns p) = 2%nat ->
  (forall j, (j < k)%nat ->
             Thread.s_ps Src (now p + 1 + j)%nat "zygote" = []) ->
  Thread.s_ps Src (now p + 1 + k)%nat "zygote" = [z] ->
  w_mnt_ns W (now p + 2 + k)%nat z = Some s ->
  s <> init_ns p ->
  Thread.find_zygote W Src (S (S k) + extra) (S fuel) p
  = Done (set_zygote_num 1
            (set_zygote_ns (<[0%nat := s]> (zygote_ns p))
               (set_trace (trace p ++ replicate (S k) (EvSleep 2)
                                   ++ [EvUsleep 500; EvReadNs z (Some s)])
                          p))).
Proof.
  induction k as [|k IH]; intros p Hz Hlen Hnone Hps Hs Hne.
  - change (S (S 0) + extra)%nat with (S (S extra)).
    cbn [Thread.find_zygote]. rewrite Hz. simpl (0 =? 0)%nat. cbv iota.
    unfold Thread.ps_filter_proc_name. rewrite now_emit.
    replace (now p + 1 + 0)%nat with (S (now p)) in Hps by lia.
    rewrite Hps.
    rewrite store_each_first_read; try done.
    + simpl. by rewrite <- app_assoc.
    + rewrite now_emit. by replace (S (S (now p))) with (now p + 2 + 0)%nat by lia.
  - change (S (S (S k)) + extra)%nat with (S (S (S k) + extra)).
    cbn [Thread.find_zygote]. rewrite Hz. simpl (0 =? 0)%nat. cbv iota.
    unfold Thread.ps_filter_proc_name. rewrite now_emit.
    pose proof (Hnone 0%nat ltac:(lia)) as H0.
    replace (now p + 1 + 0)%nat with (S (now p)) in H0 by lia.
    rewrite H0. simpl Thread.store_each. cbv iota.
    rewrite IH; try done.
    + simpl. by rewrite <- app_assoc.
    + intros j Hj. rewrite now_emit.
      replace (S (now p) + 1 + j)%nat with (now p + 1 + S j)%nat by lia.
      apply Hnone. lia.
    + rewrite now_emit.
      by replace (S (now p) + 1 + k)%nat with (now p + 1 + S k)%nat by lia.
    + rewrite now_emit.
      by replace (S (now p) + 2 + k)%nat with (now p + 2 + S k)%nat by lia.
Qed.

(** X18: start-up comes through once the spawner shows up.  With
    process 1 readable, no zygote in the first [k] scans, one in the
    next whose namespace is no longer init's, and no zygote64, start-up
    reaches the loop after [k + 1] sleeps of two seconds with that one
    fingerprint recorded and the listener on the new pipe. *)
Theorem start_up_finds_zygote k extra fuel t init :
  let p := Thread.statics t in
  List.length (zygote_ns p) = 2%nat ->
  w_mnt_ns W (now p) 1 = Some init ->
  (forall j, (j < k)%nat ->
             Thread.s_ps Src (now p + 2 + j)%nat "zygote" = []) ->
  Thread.s_ps Src (now p + 2 + k)%nat "zygote" = [z] ->
  w_mnt_ns W (now p + 3 + k)%nat z = Some s ->
  s <> init ->
  Thread.s_ps Src (now p + 4 + k)%nat "zygote64" = [] ->
  exists t',
    Thread.start_up W Src (S (S k) + extra) (S fuel) t = Thread.Listening t'
    /\ init_ns (Thread.statics t') = init
    /\ spawners (Thread.statics t') = [s]
    /\ issued p (Thread.statics t')
       = EvReadNs 1 (Some init) :: replicate (S k) (EvSleep 2)
         ++ [EvUsleep 500; EvReadNs z (Some s)]
    /\ Thread.pipefd t' = Thread.s_pipe Src (now p + 4 + k)%nat
    /\ Thread.listener_fd t' = (Thread.s_pipe Src (now p + 4 + k)%nat).2.
Proof.
  cbv zeta. intros Hlen Hinit Hnone Hps Hs Hne H64.
  unfold Thread.start_up, read_namespace. simpl Thread.statics.
  change (now (set_cache_block "" (Thread.statics t)))
    with (now (Thread.statics t)).
  rewrite Hinit. cbv beta iota zeta. simpl (negb (0 =? 0)). cbv iota.
  set (p0 := set_zygote_num 0 _).
  assert (Hn0 : now p0 = S (now (Thread.statics t))).
  { subst p0. unfold now. simpl. rewrite length_app. simpl. lia. }
  rewrite (find_zygote_found extra fuel k p0); try done.
  - unfold Thread.lift at 1. unfold Thread.ps_filter_proc_name.
    set (p1 := set_zygote_num 1 _).
    assert (Hn1 : now p1 = (now (Thread.statics t) + 4 + k)%nat).
    { change (now p1)
        with (List.length (trace p0 ++ replicate (S k) (EvSleep 2)
                             ++ [EvUsleep 500; EvReadNs z (Some s)])).
      rewrite !length_app, length_replicate.
      change (List.length (trace p0)) with (now p0). rewrite Hn0.
      simpl. lia. }
    rewrite Hn1, H64. simpl Thread.store_each. unfold Thread.lift.
    eexists. split; [reflexivity|]. simpl.
    split; [done|]. split.
    + unfold spawners. simpl.
      destruct (zygote_ns (Thread.statics t)) as [|a [|b l]]; done.
    + split; [|by rewrite Hn1].
      apply issued_grows. simpl. by rewrite <- !app_assoc.
  - intros j Hj. rewrite Hn0.
    replace (S (now (Thread.statics t)) + 1 + j)%nat
      with (now (Thread.statics t) + 2 + j)%nat by lia.
    by apply Hnone.
  - rewrite Hn0.
    by replace (S (now (Thread.statics t)) + 1 + k)%nat
      with (now (Thread.statics t) + 2 + k)%nat by lia.
  - rewrite Hn0.
    by replace (S (now (Thread.statics t)) + 2 + k)%nat
      with (now (Thread.statics t) + 3 + k)%nat by lia.
Qed.

End StartUpFound.

(** ** Finding the cache block device *)

Section CacheFacts.

Variable W : world.




End CacheFacts.

(** ** Closed instances of the further properties *)

Lemma unlisted_process_untouched_witness :
  let p := started sample_init sample_zygote in
  parse_line sample_log = Parsed 5555 "com.example.app"
  /\ ("com.example.app" ∉ ["org.example.other"])
  /\ handle_log sample_world sample_header 1 ["org.example.other"]
                (Some sample_log) p
     = Done (set_trace (trace p ++ [EvLock; EvUnlock]) p).
Proof.
  intros p.
  assert (Hout : "com.example.app" ∉ ["org.example.other"]).
  { intros Hin. apply list_elem_of_singleton in Hin. discriminate Hin. }
  split; [vm_compute; reflexivity|]. split; [exact Hout|].
  apply (unlisted_process_untouched
           sample_world sample_header 1 ["org.example.other"] sample_log
           5555 "com.example.app" p).
  - vm_compute. reflexivity.
  - exact Hout.
Defined.

Lemma freeze_is_followed_by_dispatch_witness :
  let p := started sample_init sample_zygote in
  let o := handle_log sample_world sample_header 1 ["com.example.app"]
                      (Some sample_log) p in
  (exists evs,
      grows p evs (outcome_proc o)
      /\ Forall (fun e => delivered_stop e = false /\ is_dispatch e = false)
                evs)
  \/ (exists evs p',
         o = Done p'
         /\ trace p' = trace p ++ [EvLock] ++ evs
                               ++ [EvKill 5555 SIGSTOP true]
                               ++ hide_events sample_header
                               ++ [EvFork 5555 (w_getpid sample_world);
                                   EvUnlock]
         /\ Forall (scan_event 5555) evs
         /\ hide_queue p' = wrap_int (hide_queue p + 1)
         /\ same_statics p p').
Proof.
  intros p.
  apply (freeze_is_followed_by_dispatch
           sample_world sample_header 1 ["com.example.app"] sample_log
           5555 "com.example.app" p).
  vm_compute. reflexivity.
Defined.

Lemma run_counter_follows_trace_witness :
  let p := started sample_init sample_zygote in
  let turns := [TurnLog (Some sample_log) ["com.example.app"]; TurnDone] in
  Z.abs (hide_queue p) + Z.of_nat (List.length turns) < 2 ^ 31
  /\ (let p' := outcome_proc
                  (monitor_run sample_world sample_header 1 turns p) in
      hide_queue p' = hide_queue p + pending (issued p p')).
Proof.
  intros p turns. split; [vm_compute; reflexivity|].
  apply (run_counter_follows_trace sample_world sample_header 1 turns p).
  vm_compute. reflexivity.
Defined.

(** Without a worker in flight a HIDE_DONE takes the counter below
    zero. *)
Example stray_hide_done_goes_negative :
  hide_queue (outcome_proc
                (monitor_run sample_world sample_header 1 [TurnDone]
                             (started sample_init sample_zygote)))
  = -1.
Proof. reflexivity. Qed.

Lemma store_zygote_ns_records_one_witness :
  let W0 := booted_world sample_init sample_zygote in
  let p := booting sample_init in
  let p' := outcome_proc (store_zygote_ns W0 1 321 p) in
  (zygote_num p = 2%nat -> p' = p)
  /\ ((zygote_num p < 2)%nat ->
      exists x,
        x <> init_ns p
        /\ spawners p' = spawners p ++ [x]
        /\ zygote_num p' = S (zygote_num p)
        /\ List.length (zygote_ns p') = 2%nat
        /\ init_ns p' = init_ns p
        /\ hide_queue p' = hide_queue p
        /\ cache_block p' = cache_block p
        /\ has_cache p' = has_cache p).
Proof.
  intros W0 p p'.
  apply (store_zygote_ns_records_one W0 1 321 p p').
  - reflexivity.
  - vm_compute. lia.
  - vm_compute. reflexivity.
Defined.

Lemma store_zygote_ns_waits_for_unshare_witness :
  let W0 := unsharing_world 4 sample_init sample_zygote in
  let p := booting sample_init in
  exists p',
    store_zygote_ns W0 (3 + 0) 321 p = Done p'
    /\ spawners p' = spawners p ++ [sample_zygote]
    /\ issued p p'
       = concat (replicate 2 [EvUsleep 500;
                              EvReadNs 321 (Some (init_ns p))])
         ++ [EvUsleep 500; EvReadNs 321 (Some sample_zygote)].
Proof.
  intros W0 p.
  apply (store_zygote_ns_waits_for_unshare W0 2 0 321 sample_zygote p).
  - reflexivity.
  - vm_compute. lia.
  - intros [|[|k]] Hk; [reflexivity | reflexivity | lia].
  - reflexivity.
  - discriminate.
Defined.

Lemma candidate_frozen_once_unshared_witness :
  let W0 := unsharing_world 4 sample_zygote sample_app in
  let p := started sample_init sample_zygote in
  (forall t, (4 <= t)%nat -> w_mnt_ns W0 t 5555 = Some sample_app)
  /\ (exists p',
         handle_log W0 sample_header 5 ["com.example.app"] (Some sample_log) p
         = Done p'
         /\ Exists (fun e => is_freeze 5555 e = true) (issued p p')).
Proof.
  intros W0 p.
  assert (Hsettled : forall t, (4 <= t)%nat ->
                               w_mnt_ns W0 t 5555 = Some sample_app).
  { intros t Ht. simpl. destruct (t <? 4)%nat eqn:Hlt; [|done].
    apply Nat.ltb_lt in Hlt. lia. }
  split; [exact Hsettled|].
  apply (candidate_frozen_once_unshared
           W0 sample_header 5555 sample_app 4 Hsettled 4
           ["com.example.app"] sample_log "com.example.app" p).
  - vm_compute. reflexivity.
  - apply list_elem_of_singleton. reflexivity.
  - intros Hin. apply list_elem_of_singleton in Hin. discriminate Hin.
  - vm_compute. lia.
Defined.

Lemma unmount_takes_second_field_witness :
  let W0 := calm_world (Some sample_app) [] in
  let p := started sample_init sample_zygote in
  let line := mount_line "/dev/block/loop0" "/magisk" "ext4 rw 0 0" in
  is_loop_mount line = true
  /\ unmount_pass W0 is_loop_mount [line] "/proc/5555/mounts" p
     = unmount_pass W0 is_loop_mount [] "/magisk"
                    (emit (EvUmount "/magisk" (w_umount W0 (now p) "/magisk"))
                          p).
Proof.
  intros W0 p line. split; [reflexivity|].
  apply (unmount_takes_second_field
           W0 is_loop_mount "/dev/block/loop0" "/magisk" "ext4 rw 0 0" []
           "/proc/5555/mounts" p).
  - reflexivity.
  - reflexivity.
  - reflexivity.
  - vm_compute. lia.
Defined.

Lemma unmount_of_single_field_line_witness :
  let W0 := calm_world (Some sample_app) [] in
  let p := started sample_init sample_zygote in
  let buffer := "/proc/5555/mounts" in
  is_loop_mount "/dev/block/loop0" = true
  /\ unmount_pass W0 is_loop_mount ["/dev/block/loop0"] buffer p
     = unmount_pass W0 is_loop_mount [] buffer
                    (emit (EvUmount buffer (w_umount W0 (now p) buffer)) p).
Proof.
  intros W0 p buffer. split; [reflexivity|].
  apply (unmount_of_single_field_line
           W0 is_loop_mount "/dev/block/loop0" [] buffer p).
  - reflexivity.
  - reflexivity.
Defined.


Lemma worker_calls_ignore_results_witness :
  let W1 := calm_world (Some sample_app) sample_mounts in
  let W2 := stubborn_world (Some sample_app) sample_mounts in
  let p := started sample_init sample_zygote in
  same_but_results W1 W2
  /\ map call_of (trace (outcome_proc (hide_daemon W1 5555 77 p)))
     = map call_of (trace (outcome_proc (hide_daemon W2 5555 77 p))).
Proof.
  intros W1 W2 p.
  assert (Hsame : same_but_results W1 W2) by (by repeat split).
  split; [exact Hsame|].
  apply (worker_calls_ignore_results W1 W2 Hsame 5555 77 p).
Defined.

Lemma start_up_postcondition_witness :
  let W0 := booted_world sample_init sample_zygote in
  let t := idle_thread ["com.example.app"] in
  let t' := Thread.result_state
              (Thread.start_up W0 (late_zygote 0 321) 2 1 t) in
  let p := Thread.statics t in
  let p' := Thread.statics t' in
  w_mnt_ns W0 (now p) 1 = Some (init_ns p')
  /\ spawners_ok p'
  /\ (1 <= zygote_num p')%nat
  /\ cache_block p' = ""
  /\ hide_queue p' = hide_queue p
  /\ Thread.handlers t' = [TERM_THREAD; HIDE_DONE]
  /\ Thread.listener_fd t' = (Thread.pipefd t').2
  /\ Thread.hide_list t' = Thread.hide_list t
  /\ Thread.hideEnabled t' = Thread.hideEnabled t.
Proof.
  intros W0 t t'.
  apply (start_up_postcondition W0 (late_zygote 0 321) 2 1 t t').
  - reflexivity.
  - vm_compute. reflexivity.
Defined.

Lemma start_up_without_namespaces_witness :
  let W0 := calm_world None [] in
  let t := idle_thread ["com.example.app"] in
  exists t',
    Thread.start_up W0 no_zygote 2 1 t = Thread.Exited t'
    /\ Thread.hideEnabled t' = 0
    /\ Thread.hide_list t' = []
    /\ Thread.listener_fd t' = -1
    /\ Thread.pipefd t' = (-1, -1)
    /\ Thread.mutexes t' = false
    /\ issued (Thread.statics t) (Thread.statics t') = [EvReadNs 1 None]
    /\ hide_queue (Thread.statics t') = hide_queue (Thread.statics t)
    /\ init_ns (Thread.statics t') = init_ns (Thread.statics t)
    /\ zygote_ns (Thread.statics t') = zygote_ns (Thread.statics t)
    /\ zygote_num (Thread.statics t') = zygote_num (Thread.statics t).
Proof.
  intros W0 t.
  apply (start_up_without_namespaces W0 no_zygote 2 1 t).
  reflexivity.
Defined.

Lemma start_up_waits_for_zygote_witness :
  let W0 := booted_world sample_init sample_zygote in
  let t := idle_thread ["com.example.app"] in
  exists t',
    Thread.start_up W0 no_zygote 3 1 t = Thread.Waiting t'
    /\ issued (Thread.statics t) (Thread.statics t')
       = EvReadNs 1 (Some sample_init) :: replicate 3 (EvSleep 2)
    /\ Thread.listener_fd t' = Thread.listener_fd t
    /\ Thread.pipefd t' = Thread.pipefd t
    /\ zygote_num (Thread.statics t') = 0%nat.
Proof.
  intros W0 t.
  apply (start_up_waits_for_zygote W0 no_zygote 3 1 t sample_init).
  - reflexivity.
  - intros time. reflexivity.
Defined.

Lemma start_up_finds_zygote_witness :
  let W0 := booted_world sample_init sample_zygote in
  let Src := late_zygote 3 321 in
  let t := idle_thread ["com.example.app"] in
  let p := Thread.statics t in
  exists t',
    Thread.start_up W0 Src (S (S 1) + 0) (S 0) t = Thread.Listening t'
    /\ init_ns (Thread.statics t') = sample_init
    /\ spawners (Thread.statics t') = [sample_zygote]
    /\ issued p (Thread.statics t')
       = EvReadNs 1 (Some sample_init) :: replicate (S 1) (EvSleep 2)
         ++ [EvUsleep 500; EvReadNs 321 (Some sample_zygote)]
    /\ Thread.pipefd t' = Thread.s_pipe Src (now p + 4 + 1)%nat
    /\ Thread.listener_fd t' = (Thread.s_pipe Src (now p + 4 + 1)%nat).2.
Proof.
  intros W0 Src t p.
  apply (start_up_finds_zygote W0 Src 321 sample_zygote 1 0 0 t sample_init).
  - reflexivity.
  - reflexivity.
  - intros [|j] Hj; [reflexivity | lia].
  - reflexivity.
  - reflexivity.
  - discriminate.
  - reflexivity.
Defined.

